(** * naive-server: the connection handler of cmd/main.go

    A shallow embedding of [handleConn], [parseHeader], [buildResponse] and
    the report of a failed bind of [main], together with executable models
    of the Go library calls they make ([strings], [strconv], [fmt.Sscanf]
    with the decoding of [unicode/utf8], [bufio.Reader], [os.ReadFile] and
    [os.WriteFile]), followed by the properties of the specification.

    Go's [string] is modelled by [string] (a sequence of 8-bit characters),
    [[]byte] by [list byte], and [int] (64 bits) by [Z]. *)

From Stdlib Require Import ZArith Lia Strings.Ascii Strings.Byte DecimalString.
From Stdlib Require DecimalPos.
From stdpp Require Import base option list strings gmap.

Local Open Scope Z_scope.

(** ** Byte sequences and strings *)

(** [[]byte(s)] and [string(b)]. *)
Definition bytes_of (s : string) : list byte := String.list_byte_of_string s.
Definition string_of (b : list byte) : string := String.string_of_list_byte b.

Definition CR : ascii := "013"%char.
Definition LF : ascii := "010"%char.
Definition CRLF : string := String CR (String LF EmptyString).

(** ** Package [strings] *)
Module strings.

Fixpoint contains (c : ascii) (cutset : string) : bool :=
  match cutset with
  | EmptyString => false
  | String d rest => Ascii.eqb c d || contains c rest
  end.

Fixpoint TrimLeft (s cutset : string) : string :=
  match s with
  | EmptyString => EmptyString
  | String c rest => if contains c cutset then TrimLeft rest cutset else s
  end.

Fixpoint TrimRight (s cutset : string) : string :=
  match s with
  | EmptyString => EmptyString
  | String c rest =>
      match TrimRight rest cutset with
      | EmptyString => if contains c cutset then EmptyString else String c EmptyString
      | t => String c t
      end
  end.

(** [strings.Trim(s, cutset)]: all leading and trailing characters of
    [cutset] removed. *)
Definition Trim (s cutset : string) : string :=
  TrimRight (TrimLeft s cutset) cutset.

(** [strings.Split(s, sep)] for a one-character separator, which is what
    both call sites pass: the pieces between the occurrences of [sep];
    a string without [sep] (the empty one included) is the only piece. *)
Fixpoint Split (s : string) (sep : ascii) : list string :=
  match s with
  | EmptyString => [EmptyString]
  | String c rest =>
      if Ascii.eqb c sep then EmptyString :: Split rest sep
      else match Split rest sep with
           | piece :: pieces => String c piece :: pieces
           | [] => [String c EmptyString]
           end
  end.

(** [strings.SplitAfter(s, sep)] for a one-character separator: the pieces
    after each occurrence of [sep], which stays at the end of its piece. *)
Fixpoint SplitAfter (s : string) (sep : ascii) : list string :=
  match s with
  | EmptyString => [EmptyString]
  | String c rest =>
      if Ascii.eqb c sep then String c EmptyString :: SplitAfter rest sep
      else match SplitAfter rest sep with
           | piece :: pieces => String c piece :: pieces
           | [] => [String c EmptyString]
           end
  end.

(** [strings.Join(elems, sep)]. *)
Fixpoint Join (elems : list string) (sep : string) : string :=
  match elems with
  | [] => EmptyString
  | [e] => e
  | e :: rest => e +:+ sep +:+ Join rest sep
  end.

End strings.

(** ** Errors and panics *)

Inductive error :=
  | EOF                      (* io.EOF *)
  | ECONNRESET               (* a failed read of the connection *)
  | ENOENT | EACCES          (* *fs.PathError of the os package *)
  | ErrSyntax | ErrRange     (* *strconv.NumError *)
  | ErrScan                  (* any error of fmt.Sscanf *)
  | Errorf (msg : string) (cause : error).  (* fmt.Errorf("msg: %v", cause) *)

Inductive panic :=
  | IndexOutOfRange (index : nat) (len : nat)
  | MakeSliceLenOutOfRange.

(** A computation that either yields a value or panics. *)
Inductive result (A : Type) :=
  | Ok (a : A)
  | Panic (p : panic).
Arguments Ok {A} a.
Arguments Panic {A} p.

(** [s[i]] on a slice. *)
Definition index {A} (s : list A) (i : nat) : result A :=
  match s !! i with
  | Some x => Ok x
  | None => Panic (IndexOutOfRange i (length s))
  end.

(** [s[i:]] on a slice. *)
Definition slice_from {A} (s : list A) (i : nat) : result (list A) :=
  if (i <=? length s)%nat then Ok (drop i s) else Panic (IndexOutOfRange i (length s)).

(** ** Package [strconv] *)
Module strconv.

Definition is_digit (c : ascii) : bool :=
  (48 <=? nat_of_ascii c)%nat && (nat_of_ascii c <=? 57)%nat.

Definition digit (c : ascii) : Z := Z.of_nat (nat_of_ascii c) - 48.

Definition maxUint64 : Z := 2 ^ 64 - 1.

(** The digit loop of [ParseUint(s, 10, 64)], left to right: a character
    that is no decimal digit is a syntax error, an overflow a range error
    with the largest value. *)
Fixpoint parseUint_loop (s : string) (n : Z) : Z * option error :=
  match s with
  | EmptyString => (n, None)
  | String c rest =>
      if negb (is_digit c) then (0, Some ErrSyntax)
      else if n >=? maxUint64 / 10 + 1 then (maxUint64, Some ErrRange)
      else let n1 := n * 10 + digit c in
           if n1 >? maxUint64 then (maxUint64, Some ErrRange)
           else parseUint_loop rest n1
  end.

Definition ParseUint (s : string) : Z * option error :=
  match s with
  | EmptyString => (0, Some ErrSyntax)
  | _ => parseUint_loop s 0
  end.

(** [ParseInt(s, 10, 0)]: an optional sign, then [ParseUint]; a value
    outside of int64 is a range error with the nearest bound. *)
Definition ParseInt (s : string) : Z * option error :=
  match s with
  | EmptyString => (0, Some ErrSyntax)
  | String c rest =>
      let neg := Ascii.eqb c "-" in
      let digits := if Ascii.eqb c "+" || neg then rest else s in
      match ParseUint digits with
      | (_, Some ErrSyntax) => (0, Some ErrSyntax)
      | (un, e) =>
          let cutoff := 2 ^ 63 in
          if negb neg && (un >=? cutoff) then (cutoff - 1, Some ErrRange)
          else if neg && (un >? cutoff) then (- cutoff, Some ErrRange)
          else (if neg then - un else un, e)
      end
  end.

(** [strconv.Atoi(s)]; its fast path for short strings computes what
    [ParseInt] does. *)
Definition Atoi (s : string) : Z * option error := ParseInt s.

End strconv.

(** ** Package [unicode/utf8] *)
Module utf8.

(** A rune is an [int32]; [RuneError] is U+FFFD. *)
Definition RuneError : Z := 0xFFFD.

(** The byte [s[i]], as a number. *)
Definition byte_at (s : string) (i : nat) : Z :=
  match String.get i s with
  | Some c => Z.of_nat (nat_of_ascii c)
  | None => 0
  end.

(** The table [first] together with [acceptRanges], for the bytes from
    0x80 on: the length of the sequence that a first byte starts and the
    range its second byte must be in; [None] for a byte that starts no
    sequence (the entries [xx]). *)
Definition first (s0 : Z) : option (nat * Z * Z) :=
  if s0 <? 0xC2 then None
  else if s0 <? 0xE0 then Some (2%nat, 0x80, 0xBF)
  else if s0 =? 0xE0 then Some (3%nat, 0xA0, 0xBF)
  else if s0 =? 0xED then Some (3%nat, 0x80, 0x9F)
  else if s0 <? 0xF0 then Some (3%nat, 0x80, 0xBF)
  else if s0 =? 0xF0 then Some (4%nat, 0x90, 0xBF)
  else if s0 <? 0xF4 then Some (4%nat, 0x80, 0xBF)
  else if s0 =? 0xF4 then Some (4%nat, 0x80, 0x8F)
  else None.

(** [utf8.DecodeRuneInString(s)]: the first rune of [s] and the number of
    bytes it takes; [(RuneError, 1)] when [s] does not start with a valid
    sequence. *)
Definition DecodeRuneInString (s : string) : Z * nat :=
  if (String.length s <? 1)%nat then (RuneError, 0%nat)
  else
    let s0 := byte_at s 0 in
    if s0 <? 0x80 then (s0, 1%nat)
    else
      match first s0 with
      | None => (RuneError, 1%nat)
      | Some (sz, lo, hi) =>
          if (String.length s <? sz)%nat then (RuneError, 1%nat)
          else
            let s1 := byte_at s 1 in
            if (s1 <? lo) || (hi <? s1) then (RuneError, 1%nat)
            else if (sz <=? 2)%nat then
              (Z.lor (Z.shiftl (Z.land s0 0x1F) 6) (Z.land s1 0x3F), 2%nat)
            else
              let s2 := byte_at s 2 in
              if (s2 <? 0x80) || (0xBF <? s2) then (RuneError, 1%nat)
              else if (sz <=? 3)%nat then
                (Z.lor (Z.lor (Z.shiftl (Z.land s0 0x0F) 12)
                              (Z.shiftl (Z.land s1 0x3F) 6))
                       (Z.land s2 0x3F), 3%nat)
              else
                let s3 := byte_at s 3 in
                if (s3 <? 0x80) || (0xBF <? s3) then (RuneError, 1%nat)
                else
                  (Z.lor (Z.lor (Z.lor (Z.shiftl (Z.land s0 0x07) 18)
                                       (Z.shiftl (Z.land s1 0x3F) 12))
                                (Z.shiftl (Z.land s2 0x3F) 6))
                         (Z.land s3 0x3F), 4%nat)
      end.

Definition char (n : Z) : ascii := ascii_of_nat (Z.to_nat n).

(** The bytes that [utf8.AppendRune(p, r)] appends: the encoding of [r],
    or that of [RuneError] for a value that is no rune. *)
Definition AppendRune (r : Z) : string :=
  if (0 <=? r) && (r <=? 0x7F) then String (char r) EmptyString
  else if (0 <=? r) && (r <=? 0x7FF) then
    String (char (Z.lor 0xC0 (Z.shiftr r 6)))
      (String (char (Z.lor 0x80 (Z.land r 0x3F))) EmptyString)
  else
    let r := if (r <? 0) || (0x10FFFF <? r) || ((0xD800 <=? r) && (r <=? 0xDFFF))
             then RuneError else r in
    if r <=? 0xFFFF then
      String (char (Z.lor 0xE0 (Z.shiftr r 12)))
        (String (char (Z.lor 0x80 (Z.land (Z.shiftr r 6) 0x3F)))
           (String (char (Z.lor 0x80 (Z.land r 0x3F))) EmptyString))
    else
      String (char (Z.lor 0xF0 (Z.shiftr r 18)))
        (String (char (Z.lor 0x80 (Z.land (Z.shiftr r 12) 0x3F)))
           (String (char (Z.lor 0x80 (Z.land (Z.shiftr r 6) 0x3F)))
              (String (char (Z.lor 0x80 (Z.land r 0x3F))) EmptyString))).

End utf8.

(** ** Package [fmt] *)
Module fmt.

(** [%d] of an [int]. *)
Definition Sprintd (n : Z) : string := NilZero.string_of_int (Z.to_int n).

(** The runes that the successive [ReadRune] of the scanner find in the
    input: each is decoded from the bytes that are left, an invalid byte
    giving [RuneError] and taking one byte. [pending] counts the bytes
    of the rune before that are still to be passed over. *)
Fixpoint runes (pending : nat) (s : string) : list Z :=
  match s with
  | EmptyString => []
  | String _ rest =>
      match pending with
      | S k => runes k rest
      | O =>
          let '(r, size) := utf8.DecodeRuneInString s in
          r :: runes (size - 1)%nat rest
      end
  end.

(** [hugeWid], the [limit] of a scan state: once a scan has consumed
    that many runes, [ss.ReadRune] reports the end of the input. So the
    scan sees the runes of the input up to that number. *)
Definition hugeWid : Z := 2 ^ 30.

Fixpoint upto (limit : Z) (s : list Z) : list Z :=
  match s with
  | [] => []
  | r :: rest => if limit <=? 0 then [] else r :: upto (limit - 1) rest
  end.

(** The table [space] of the ranges of the space runes. *)
Definition space : list (Z * Z) :=
  [ (0x0009, 0x000d); (0x0020, 0x0020); (0x0085, 0x0085); (0x00a0, 0x00a0);
    (0x1680, 0x1680); (0x2000, 0x200a); (0x2028, 0x2029); (0x202f, 0x202f);
    (0x205f, 0x205f); (0x3000, 0x3000) ].

Fixpoint in_ranges (rx : Z) (ranges : list (Z * Z)) : bool :=
  match ranges with
  | [] => false
  | (lo, hi) :: ranges =>
      if rx <? lo then false
      else if rx <=? hi then true
      else in_ranges rx ranges
  end.

(** [isSpace(r)]. *)
Definition isSpace (r : Z) : bool :=
  if 0x10000 <=? r then false else in_ranges r space.

(** [ss.SkipSpace] of a scan in which a newline is no space, on the runes
    that are left: [None] is its error "unexpected newline". *)
Fixpoint SkipSpace (s : list Z) : option (list Z) :=
  match s with
  | [] => Some s
  | r :: rest =>
      if r =? 0x0A then None
      else if isSpace r then SkipSpace rest
      else Some s
  end.

(** [ss.token(true, notSpace)]: the runes up to the first space, each
    written to the buffer with [writeRune], and the runes that follow. *)
Fixpoint token (s : list Z) : string * list Z :=
  match s with
  | [] => (EmptyString, [])
  | r :: rest =>
      if isSpace r then (EmptyString, s)
      else let '(t, s') := token rest in (utf8.AppendRune r +:+ t, s')
  end.

(** The verb [%s]: spaces skipped, then a token, which the input must
    still have. *)
Definition scan_s (s : list Z) : option (string * list Z) :=
  s ← SkipSpace s;
  match s with
  | [] => None      (* unexpected EOF *)
  | _ => Some (token s)
  end.

(** The spaces of the input up to a newline. *)
Fixpoint skipBlank (s : list Z) : list Z :=
  match s with
  | [] => s
  | r :: rest => if isSpace r && negb (r =? 0x0A) then skipBlank rest else s
  end.

(** A space of the format between two verbs: one or more spaces of the
    input or its end, and no newline. *)
Definition advance_space (s : list Z) : option (list Z) :=
  match s with
  | [] => Some s
  | r :: rest =>
      if negb (isSpace r) then None
      else if r =? 0x0A then None
      else Some (skipBlank rest)
  end.

(** The ["\r\n"] that ends the format: spaces of the input, then a
    newline or the end of the input. *)
Definition advance_newline (s : list Z) : option unit :=
  match skipBlank s with
  | [] => Some ()
  | r :: _ => if r =? 0x0A then Some () else None
  end.

(** [fmt.Sscanf(str, "%s %s %s\r\n", &a, &b, &c)]: the three operands
    when it returns [3, nil], and [None] when it returns an error (it
    never returns fewer than three without one). *)
Definition Sscanf (str : string) : option (string * string * string) :=
  '(a, s) ← scan_s (upto hugeWid (runes 0 str));
  s ← advance_space s;
  '(b, s) ← scan_s s;
  s ← advance_space s;
  '(c, s) ← scan_s s;
  _ ← advance_newline s;
  Some (a, b, c).

End fmt.

(** ** The connection *)

(** The reading side of a [net.Conn]: the chunks of bytes that successive
    reads of the socket find, in order, and the error that every read
    reports once they are used up ([EOF] when the peer has closed). *)
Record Conn := mkConn {
  incoming : list (list byte);
  closing : error
}.

Definition bytes_left (chunks : list (list byte)) : nat := length (concat chunks).

(** [conn.Read(p)] with [len(p) = n]: at most [n] bytes of the first chunk
    that has any (a read blocks until there is data); [None] when the
    stream is used up, which is the case in which the read reports
    [closing]. *)
Fixpoint conn_Read (n : nat) (chunks : list (list byte))
  : option (list byte * list (list byte)) :=
  match chunks with
  | [] => None
  | [] :: rest => conn_Read n rest
  | c :: rest =>
      Some (take n c, match drop n c with [] => rest | c' => c' :: rest end)
  end.

(** ** Package [bufio] *)
Module bufio.

Definition defaultBufSize : nat := 4096.

(** A [*bufio.Reader] of the default size: [buf] is the unread part
    [b.buf[b.r:b.w]] of its buffer. Its sticky error [b.err] is no field
    here: the connection reports an error only with a read of no bytes,
    and [b.readErr()] then returns and clears it within the same call. *)
Record Reader := mkReader {
  buf : list byte;
  rd : list (list byte);
  rdErr : error
}.

Definition NewReader (conn : Conn) : Reader :=
  mkReader [] (incoming conn) (closing conn).

(** Everything the reader has still to deliver. *)
Definition remaining (b : Reader) : list byte := buf b ++ concat (rd b).

(** [bytes.IndexByte] and the cut after the delimiter: the line up to and
    with the first [delim], and the rest. *)
Fixpoint cut (delim : byte) (l : list byte) : option (list byte * list byte) :=
  match l with
  | [] => None
  | x :: l' =>
      if Byte.eqb x delim then Some ([x], l')
      else match cut delim l' with
           | Some (line, rest) => Some (x :: line, rest)
           | None => None
           end
  end.

(** The loop of [ReadSlice] inside the loop of [collectFragments]:
    [frags] are the full buffers already collected. The buffer is
    searched; without a delimiter in it, a full buffer is collected and
    emptied, and one that has room is filled by one read of the
    connection, whose error ends the line with what was read so far. *)
Fixpoint ReadBytes_loop (fuel : nat) (delim : byte) (b : Reader) (frags : list byte)
  : option (list byte * option error * Reader) :=
  match fuel with
  | O => None
  | S fuel =>
      match cut delim (buf b) with
      | Some (line, rest) => Some (frags ++ line, None, mkReader rest (rd b) (rdErr b))
      | None =>
          if (defaultBufSize <=? length (buf b))%nat then
            ReadBytes_loop fuel delim (mkReader [] (rd b) (rdErr b)) (frags ++ buf b)
          else
            match conn_Read (defaultBufSize - length (buf b)) (rd b) with
            | Some (got, rd') =>
                ReadBytes_loop fuel delim (mkReader (buf b ++ got) rd' (rdErr b)) frags
            | None =>
                Some (frags ++ buf b, Some (rdErr b), mkReader [] [] (rdErr b))
            end
      end
  end.

(** Every turn of the loop but the last empties a full buffer or takes at
    least one byte off the connection. *)
Definition ReadBytes_fuel (b : Reader) : nat :=
  S (2 * bytes_left (rd b) + length (buf b)).

(** [b.ReadBytes(delim)]. *)
Definition ReadBytes (b : Reader) (delim : byte)
  : option (list byte * option error * Reader) :=
  ReadBytes_loop (ReadBytes_fuel b) delim b [].

(** [b.Read(p)] with [len(p) = n]: the bytes copied to the front of [p].
    They come from the buffer when it has any, and else from ONE read of
    the connection; there may be fewer than [n], without an error. *)
Definition Read (b : Reader) (n : nat) : list byte * option error * Reader :=
  if (n =? 0)%nat then ([], None, b)
  else
    match buf b with
    | [] =>
        if (defaultBufSize <=? n)%nat then
          (* Large read, empty buffer: read directly into p. *)
          match conn_Read n (rd b) with
          | Some (got, rd') => (got, None, mkReader [] rd' (rdErr b))
          | None => ([], Some (rdErr b), mkReader [] [] (rdErr b))
          end
        else
          (* One read into the buffer, then copy. *)
          match conn_Read defaultBufSize (rd b) with
          | Some (got, rd') => (take n got, None, mkReader (drop n got) rd' (rdErr b))
          | None => ([], Some (rdErr b), mkReader [] [] (rdErr b))
          end
    | _ => (take n (buf b), None, mkReader (drop n (buf b)) (rd b) (rdErr b))
    end.

End bufio.

(** [make([]byte, n)]: [n] zero bytes; a negative length, or one beyond
    what can be allocated, panics. *)
Definition maxAlloc : Z := 2 ^ 48.
Definition make_bytes (n : Z) : result (list byte) :=
  if (n <? 0) || (maxAlloc <? n) then Panic MakeSliceLenOutOfRange
  else Ok (replicate (Z.to_nat n) x00).

(** [p] after [got] was copied to its front. *)
Definition copy_into (p got : list byte) : list byte :=
  got ++ drop (length got) p.

(** ** Package [os]: the files *)
Module os.

(** A regular file: its permission bits and its bytes. *)
Record file := mkFile {
  mode : Z;
  data : list byte
}.

(** The part of the file system the handler can touch: the regular
    files by path, whether a path that is no file can be created (its
    directory exists and can be written, and it is no directory itself),
    and whether the process passes every permission check. *)
Record filesystem := mkFilesystem {
  files : gmap string file;
  creatable : string -> bool;
  superuser : bool
}.

(** [fs.ModeAppend] and [fs.ModePerm]. *)
Definition ModeAppend : Z := 2 ^ 30.
Definition ModePerm : Z := 511.

Definition may_read (fs : filesystem) (f : file) : bool :=
  superuser fs || Z.testbit (mode f) 8.
Definition may_write (fs : filesystem) (f : file) : bool :=
  superuser fs || Z.testbit (mode f) 7.

Definition set_file (name : string) (f : file) (fs : filesystem) : filesystem :=
  mkFilesystem (<[name := f]> (files fs)) (creatable fs) (superuser fs).

(** [os.WriteFile(name, data, perm)]: an existing file is truncated and
    written, its permissions unchanged; a new one gets the permission
    bits of [perm]. *)
Definition WriteFile (name : string) (d : list byte) (perm : Z) (fs : filesystem)
  : filesystem * option error :=
  match files fs !! name with
  | Some f =>
      if may_write fs f then (set_file name (mkFile (mode f) d) fs, None)
      else (fs, Some EACCES)
  | None =>
      if creatable fs name
      then (set_file name (mkFile (Z.land perm ModePerm) d) fs, None)
      else (fs, Some ENOENT)
  end.

(** [os.ReadFile(name)]. *)
Definition ReadFile (name : string) (fs : filesystem) : list byte * option error :=
  match files fs !! name with
  | Some f => if may_read fs f then (data f, None) else ([], Some EACCES)
  | None => ([], Some ENOENT)
  end.

End os.

(** ** The program: constants and data *)

Definition serverVersion : string := "0.1".
Definition serverName : string := "naive-server¯\_(ツ)_/¯".

Definition statusOK : Z := 200.
Definition statusCreated : Z := 201.
Definition statusInternalServerError : Z := 500.
Definition statusNotFound : Z := 404.
Definition statusBadRequest : Z := 400.
Definition statusMethodNotAllowed : Z := 405.

Definition methodGet : string := "GET".
Definition methodPost : string := "POST".

Definition textStatusOK : string := "OK".
Definition textStatusCreated : string := "Created".
Definition textStatusInternal : string := "Internal Server Error".
Definition textStatusNotFound : string := "Not Found".
Definition textStatusBadRequest : string := "Bad Request".
Definition textStatusMethodNotAllowed : string := "Method Not Allowed".

Definition contentTypeTextPlain : string := "text/plain".
Definition contentTypeOctetStream : string := "application/octet-stream".

Record options := mkOptions {
  directory : string;
  opt_host : string
}.

Record request := mkRequest {
  method : string;
  httpVersion : string;
  host : string;
  userAgent : string;
  path : string;
  pathParts : list string;
  contentLength : Z
}.

(** [var req request]: every field at its zero value. *)
Definition zero_request : request :=
  mkRequest "" "" "" "" "" [] 0.

Definition set_pathParts (v : list string) (req : request) : request :=
  mkRequest (method req) (httpVersion req) (host req) (userAgent req)
            (path req) v (contentLength req).
Definition set_host (v : string) (req : request) : request :=
  mkRequest (method req) (httpVersion req) v (userAgent req)
            (path req) (pathParts req) (contentLength req).
Definition set_userAgent (v : string) (req : request) : request :=
  mkRequest (method req) (httpVersion req) (host req) v
            (path req) (pathParts req) (contentLength req).
Definition set_contentLength (v : Z) (req : request) : request :=
  mkRequest (method req) (httpVersion req) (host req) (userAgent req)
            (path req) (pathParts req) v.

Record content := mkContent {
  contentType : string;
  body : list byte
}.

(** ** [buildResponse] (main.go, lines 241-271) *)

(** The status line the [switch] writes: the four cases it has, and nothing
    for any other [respType]. *)
Definition statusLine (respType : Z) : string :=
  if respType =? statusOK then
    "HTTP/1.1 " +:+ fmt.Sprintd statusOK +:+ " " +:+ textStatusOK +:+ CRLF
  else if respType =? statusCreated then
    "HTTP/1.1 " +:+ fmt.Sprintd statusCreated +:+ " " +:+ textStatusCreated +:+ CRLF
  else if respType =? statusNotFound then
    "HTTP/1.1 " +:+ fmt.Sprintd statusNotFound +:+ " " +:+ textStatusNotFound +:+ CRLF
  else if respType =? statusMethodNotAllowed then
    "HTTP/1.1 " +:+ fmt.Sprintd statusMethodNotAllowed +:+ " "
      +:+ textStatusMethodNotAllowed +:+ CRLF
  else "".

(** [now] is the reading [time.Now().Format("Mon, 02 Jan 2006 15:04:05 MST")]
    of the clock at the call. *)
Definition buildResponse (now : string) (respType : Z) (c : option content) : list byte :=
  let resp := [] in
  (* Add return status *)
  let resp := resp ++ bytes_of (statusLine respType) in
  (* Add headers *)
  let resp := resp ++ bytes_of ("Date: " +:+ now +:+ CRLF) in
  let resp := resp ++ bytes_of ("Server: " +:+ serverName +:+ " v" +:+ serverVersion +:+ CRLF) in
  let resp :=
    match c with
    | Some c =>
        (resp ++ bytes_of ("Content-Type: " +:+ contentType c +:+ CRLF))
          ++ bytes_of ("Content-Length: " +:+ fmt.Sprintd (Z.of_nat (length (body c))) +:+ CRLF)
    | None => resp
    end in
  let resp := resp ++ bytes_of CRLF in
  match c with
  | Some c => resp ++ body c   (* Add content *)
  | None => resp
  end.

(** ** [parseHeader] (main.go, lines 224-239) *)

Definition parseHeader (line : list byte) (req : request) : result request :=
  let parts := strings.Split (string_of line) ":" in
  match index parts 0 with
  | Panic p => Panic p
  | Ok key =>
      let key := strings.Trim key (String LF (String CR " ")) in
      if String.eqb key "Host" then
        match index parts 1 with
        | Panic p => Panic p
        | Ok v => Ok (set_host (strings.Trim v (String CR (String LF " "))) req)
        end
      else if String.eqb key "User-Agent" then
        match index parts 1 with
        | Panic p => Panic p
        | Ok v => Ok (set_userAgent (strings.Trim v (String CR (String LF " "))) req)
        end
      else if String.eqb key "Content-Length" then
        match index parts 1 with
        | Panic p => Panic p
        | Ok v =>
            let '(conLen, err) := strconv.Atoi (strings.Trim v (String CR (String LF " "))) in
            (* if err != nil { TODO } *)
            Ok (set_contentLength conLen req)
        end
      else Ok req
  end.

(** ** [handleConn] (main.go, lines 120-222) *)

Inductive outcome :=
  | Return (err : option error)
  | Panicked (p : panic).

(** A run of the handler: the responses written to the connection, one
    element per [conn.Write], the file system and the reader it leaves, and
    how it ended. *)
Record run := mkRun {
  written : list (list byte);
  fsys : os.filesystem;
  reader : bufio.Reader;
  outcome_of : outcome
}.

Section Handler.

(** [clock k] is the formatted reading of [time.Now()] at the [k]-th
    call of [buildResponse] in a run. Each call is the argument of one
    [conn.Write]. *)
Variable clock : nat -> string.
Variable opts : options.

(** [conn.Write(buildResponse(respType, c))]. *)
Definition respond (w : list (list byte)) (respType : Z) (c : option content)
  : list (list byte) :=
  w ++ [buildResponse (clock (length w)) respType c].

(** How the header loop of lines 142-154 ends. *)
Inductive headers :=
  | Break (req : request) (reqReader : bufio.Reader)
  | HeaderError (e : error) (reqReader : bufio.Reader)
  | HeaderPanic (p : panic) (reqReader : bufio.Reader).

Fixpoint parseHeaders (fuel : nat) (reqReader : bufio.Reader) (req : request)
  : option headers :=
  match fuel with
  | O => None
  | S fuel =>
      '(headerStr, err, reqReader) ← bufio.ReadBytes reqReader "010";
      match err with
      | Some e => Some (HeaderError e reqReader)
      | None =>
          if (length headerStr =? 2)%nat then Some (Break req reqReader)
          else match parseHeader headerStr req with
               | Panic p => Some (HeaderPanic p reqReader)
               | Ok req => parseHeaders fuel reqReader req
               end
      end
  end.

(** A line read without an error has at least its delimiter. *)
Definition parseHeaders_fuel (b : bufio.Reader) : nat :=
  S (length (bufio.remaining b)).

(** The switch of the GET requests either goes on to the statement after
    it or returns. *)
Inductive switched :=
  | Next (w : list (list byte))
  | Exit (r : run).

(** Lines 156-221: the request is parsed, [w] is what was written. *)
Definition route (req : request) (reqReader : bufio.Reader) (fs : os.filesystem)
  : run :=
  let w := [] in
  if (length (pathParts req) <? 2)%nat then
    mkRun (respond w statusBadRequest None) fs reqReader (Return None)
  else
  (* Handle POST requests *)
  if String.eqb (method req) methodPost then
    match index (pathParts req) 1 with
    | Panic p => mkRun w fs reqReader (Panicked p)
    | Ok key =>
        if String.eqb key "files" then
          match make_bytes (contentLength req) with
          | Panic p => mkRun w fs reqReader (Panicked p)
          | Ok buf =>
              let '(got, err, reqReader) := bufio.Read reqReader (length buf) in
              let buf := copy_into buf got in
              match err with
              | Some e =>
                  mkRun (respond w statusInternalServerError None) fs reqReader
                        (Return (Some (Errorf "error parsing request" e)))
              | None =>
                  match index (pathParts req) 2 with
                  | Panic p => mkRun w fs reqReader (Panicked p)
                  | Ok name =>
                      let '(fs, err) :=
                        os.WriteFile (directory opts +:+ name) buf os.ModeAppend fs in
                      match err with
                      | Some e =>
                          mkRun (respond w statusInternalServerError None) fs reqReader
                                (Return (Some (Errorf ("error writing " +:+ name) e)))
                      | None =>
                          mkRun (respond w statusCreated None) fs reqReader (Return None)
                      end
                  end
              end
          end
        else
          mkRun (respond w statusNotFound None) fs reqReader (Return None)
    end
  else
  (* Handle GET requests *)
  let get :=
    if String.eqb (method req) methodGet then
      match index (pathParts req) 1 with
      | Panic p => Exit (mkRun w fs reqReader (Panicked p))
      | Ok key =>
          if String.eqb key "" then
            Next (respond w statusOK None)
          else if String.eqb key "echo" then
            match slice_from (pathParts req) 2 with
            | Panic p => Exit (mkRun w fs reqReader (Panicked p))
            | Ok rest =>
                let c := mkContent "text/plain" (bytes_of (strings.Join rest "/")) in
                Next (respond w statusOK (Some c))
            end
          else if String.eqb key "user-agent" then
            let c := mkContent contentTypeTextPlain (bytes_of (userAgent req)) in
            Next (respond w statusOK (Some c))
          else if String.eqb key "files" then
            match index (pathParts req) 2 with
            | Panic p => Exit (mkRun w fs reqReader (Panicked p))
            | Ok name =>
                let '(data, err) := os.ReadFile (directory opts +:+ name) fs in
                match err with
                | Some e =>
                    Exit (mkRun (respond w statusNotFound None) fs reqReader
                                (Return (Some (Errorf ("error reading " +:+ name) e))))
                | None =>
                    let c := mkContent contentTypeOctetStream data in
                    Next (respond w statusOK (Some c))
                end
            end
          else
            Next (respond w statusNotFound None)
      end
    else Next w in
  match get with
  | Exit r => r
  | Next w =>
      mkRun (respond w statusMethodNotAllowed None) fs reqReader (Return None)
  end.

(** Lines 120-154, then [route]. [None] only if a loop ran out of fuel,
    which [handleConn_returns] shows never to happen. *)
Definition handleConn (conn : Conn) (fs : os.filesystem) : option run :=
  (* Parse request *)
  let reqReader := bufio.NewReader conn in
  '(reqStr, err, reqReader) ← bufio.ReadBytes reqReader "010";
  match err with
  | Some EOF | None =>
      let req := zero_request in
      match fmt.Sscanf (string_of reqStr) with
      | None =>
          Some (mkRun [] fs reqReader
                      (Return (Some (Errorf "error reading request string" ErrScan))))
      | Some (m, p, v) =>
          let req := mkRequest m v (host req) (userAgent req) p
                               (pathParts req) (contentLength req) in
          (* Parse path parts *)
          let req :=
            set_pathParts
              (strings.Split (strings.Trim (path req) (String CR (String LF " "))) "/")
              req in
          (* Parse headers *)
          h ← parseHeaders (parseHeaders_fuel reqReader) reqReader req;
          match h with
          | HeaderError e reqReader =>
              Some (mkRun [] fs reqReader
                          (Return (Some (Errorf "error reading header line bytes" e))))
          | HeaderPanic p reqReader => Some (mkRun [] fs reqReader (Panicked p))
          | Break req reqReader => Some (route req reqReader fs)
          end
      end
  | Some e =>
      Some (mkRun [] fs reqReader
                  (Return (Some (Errorf "error reading request line bytes" e))))
  end.

End Handler.

(** ** [main] (main.go, lines 57-103): the report of a failed bind *)

(** Lines 64-68, when [net.Listen] has returned an error: what
    [fmt.Printf("Failed to bind to port %s\n",
    strings.SplitAfter(opts.host, ":")[1])] prints before [os.Exit(1)], or
    the panic of its index expression. *)
Definition bindFailure (opts : options) : result string :=
  match index (strings.SplitAfter (opt_host opts) ":") 1 with
  | Ok port => Ok ("Failed to bind to port " +:+ port +:+ String LF EmptyString)
  | Panic p => Panic p
  end.

(** ** Concrete connections, for the examples *)

Definition the_clock : nat -> string := fun _ => "Thu, 01 Jan 1970 00:00:00 UTC".
Definition the_opts : options := mkOptions "./" "0.0.0.0:4221".

(** A peer that sends the given chunks and closes. *)
Definition sends (chunks : list string) : Conn := mkConn (bytes_of <$> chunks) EOF.

Definition empty_fs (root : bool) : os.filesystem :=
  os.mkFilesystem ∅ (fun _ => true) root.


(** * Notions of the specification *)

(** A request as its lines, each ended by CRLF, and its body. *)
Definition http (lines : list string) (body : string) : string :=
  foldr (fun l rest => l +:+ CRLF +:+ rest) body lines.

(** The number of a byte, and the numbers of the bytes of a string. *)
Definition code (c : ascii) : Z := Z.of_nat (nat_of_ascii c).

Fixpoint codes (s : string) : list Z :=
  match s with
  | EmptyString => []
  | String c rest => code c :: codes rest
  end.

(** A byte of a word of a request line: an ASCII byte (below 0x80) that
    is not a space. These are the bytes that [fmt.Sscanf] reads as one
    rune each and writes back as they are; the statements about request
    lines are about words of such bytes. *)
Definition word_byte (c : ascii) : bool :=
  (nat_of_ascii c <? 128)%nat && negb (fmt.isSpace (code c)).
Arguments word_byte : simpl never.

Fixpoint ascii_no_space (s : string) : bool :=
  match s with
  | EmptyString => true
  | String c rest => word_byte c && ascii_no_space rest
  end.

(** A word of a request line: at least one byte, all of them ASCII, none
    of them a space. *)
Definition word (s : string) : bool :=
  match s with
  | EmptyString => false
  | _ => ascii_no_space s
  end.

(** Runes that start with a space, or no rune. *)
Definition at_space (s : list Z) : bool :=
  match s with
  | [] => true
  | r :: _ => fmt.isSpace r
  end.

(** The request line made of three words. *)
Definition request_line (m p v : string) : list byte :=
  bytes_of (m +:+ " " +:+ p +:+ " " +:+ v +:+ CRLF).

(** A line that a scan reads to its end: it has no more bytes than the
    scan reads runes. *)
Definition scanned_whole (line : list byte) : bool :=
  Z.of_nat (length line) <=? fmt.hugeWid.

(** The request that lines 128-139 of [handleConn] make of the three
    words of the request line. *)
Definition request_of (m p v : string) : request :=
  set_pathParts
    (strings.Split (strings.Trim p (String CR (String LF " "))) "/")
    (mkRequest m v "" "" p [] 0).

(** A string without a given character. *)
Definition lacks (c : ascii) (s : string) : bool := negb (strings.contains c s).

(** The number that decimal digits denote after the number [acc]. *)
Fixpoint uint_value (d : Decimal.uint) (acc : Z) : Z :=
  match d with
  | Decimal.Nil => acc
  | Decimal.D0 d => uint_value d (10 * acc)
  | Decimal.D1 d => uint_value d (10 * acc + 1)
  | Decimal.D2 d => uint_value d (10 * acc + 2)
  | Decimal.D3 d => uint_value d (10 * acc + 3)
  | Decimal.D4 d => uint_value d (10 * acc + 4)
  | Decimal.D5 d => uint_value d (10 * acc + 5)
  | Decimal.D6 d => uint_value d (10 * acc + 6)
  | Decimal.D7 d => uint_value d (10 * acc + 7)
  | Decimal.D8 d => uint_value d (10 * acc + 8)
  | Decimal.D9 d => uint_value d (10 * acc + 9)
  end.

(** A text without a carriage return, a line feed or a space. *)
Definition untrimmable (w : string) : bool :=
  lacks CR w && lacks LF w && lacks " " w.

(** The text of a header line: at least one byte, and no line feed. *)
Definition header_text (h : string) : bool :=
  negb (String.eqb h "") && lacks LF h.

(** A header line as the parser receives it. *)
Definition header_line (s : string) : list byte := bytes_of (s +:+ CRLF).

(** A line: bytes without a line feed, then a line feed. *)
Definition is_line (l : list byte) : bool :=
  match bufio.cut "010" l with
  | Some (_, []) => true
  | _ => false
  end.

(** What a call of [ReadBytes] returns, in terms of the bytes the reader
    had still to deliver: a line that ends at the first delimiter, or,
    when there is no delimiter before the stream ends, all of them with the
    error of the connection. *)
Definition ReadBytes_post (delim : byte) (b : bufio.Reader) (frags : list byte)
    (res : list byte * option error * bufio.Reader) : Prop :=
  let '(out, e, b') := res in
  bufio.rdErr b' = bufio.rdErr b /\
  match e with
  | None =>
      exists l, out = frags ++ l ++ [delim] /\ (delim ∉ l) /\
                bufio.remaining b = l ++ [delim] ++ bufio.remaining b'
  | Some err =>
      err = bufio.rdErr b /\ out = frags ++ bufio.remaining b /\
      (delim ∉ bufio.remaining b) /\ bufio.remaining b' = []
  end.

(** The header parser applied to the lines in order, up to its first
    panic. *)
Fixpoint parse_all (hs : list (list byte)) (req : request) : result request :=
  match hs with
  | [] => Ok req
  | h :: hs =>
      match parseHeader h req with
      | Ok req => parse_all hs req
      | Panic p => Panic p
      end
  end.


(** The response in the words of the specification, to compare
    [buildResponse] with. Everything that follows the status line:
    the Date and Server headers, the Content-Type and Content-Length
    headers of a content, the blank line, and the body of a content. *)
Definition after_status_line (now : string) (c : option content) : list byte :=
  bytes_of ("Date: " +:+ now +:+ CRLF)
  ++ bytes_of ("Server: " +:+ serverName +:+ " v" +:+ serverVersion +:+ CRLF)
  ++ match c with
     | Some c =>
         bytes_of ("Content-Type: " +:+ contentType c +:+ CRLF)
         ++ bytes_of ("Content-Length: "
                        +:+ fmt.Sprintd (Z.of_nat (length (body c))) +:+ CRLF)
     | None => []
     end
  ++ bytes_of CRLF
  ++ match c with
     | Some c => body c
     | None => []
     end.

(** The reason phrase of each status code of the closed enumeration. *)
Definition reasonPhrase (code : Z) : option string :=
  if code =? 200 then Some "OK"
  else if code =? 201 then Some "Created"
  else if code =? 400 then Some "Bad Request"
  else if code =? 404 then Some "Not Found"
  else if code =? 405 then Some "Method Not Allowed"
  else if code =? 500 then Some "Internal Server Error"
  else None.

(** The whole response: the status line with the code and its reason
    phrase, then the rest. *)
Definition wire_response (now : string) (code : Z) (reason : string)
    (c : option content) : list byte :=
  bytes_of ("HTTP/1.1 " +:+ fmt.Sprintd code +:+ " " +:+ reason +:+ CRLF)
  ++ after_status_line now c.

(** A header line split at its FIRST colon, both parts trimmed: the key
    and the value of the specification. *)
Fixpoint split_first (s : string) (sep : ascii) : option (string * string) :=
  match s with
  | EmptyString => None
  | String c rest =>
      if Ascii.eqb c sep then Some (EmptyString, rest)
      else match split_first rest sep with
           | Some (k, v) => Some (String c k, v)
           | None => None
           end
  end.

Definition header_key (line : list byte) : option string :=
  match split_first (string_of line) ":" with
  | Some (k, _) => Some (strings.Trim k (String LF (String CR " ")))
  | None => None
  end.

Definition header_value (line : list byte) : option string :=
  match split_first (string_of line) ":" with
  | Some (_, v) => Some (strings.Trim v (String CR (String LF " ")))
  | None => None
  end.

(** The text of a value up to its first colon: all of it when it has
    none. *)
Definition up_to_colon (v : string) : string :=
  match split_first v ":" with
  | Some (v1, _) => v1
  | None => v
  end.

(** A string that parses as a non-negative integer: [strconv.Atoi]
    accepts it, with a value that is not negative. *)
Definition nonneg_integer (s : string) : bool :=
  match strconv.Atoi s with
  | (n, None) => 0 <=? n
  | _ => false
  end.

(** * Properties *)

(** The fields of a reader that is given by its constructor. *)
Ltac reader_simpl :=
  unfold bufio.remaining in *;
  cbn [bufio.buf bufio.rd bufio.rdErr app concat] in *.

(** ** Bytes *)

Lemma byte_eqb_eq (x y : byte) : Byte.eqb x y = true <-> x = y.
Proof.
  split; [apply Byte.byte_dec_bl | apply Byte.byte_dec_lb].
Qed.

(** ** The buffered reader *)

Lemma cut_Some delim l line rest :
  bufio.cut delim l = Some (line, rest) ->
  exists pre, line = pre ++ [delim] /\ (delim ∉ pre) /\ l = pre ++ [delim] ++ rest.
Proof.
  revert line rest. induction l as [|x l IH]; intros line rest; simpl; [done|].
  destruct (Byte.eqb x delim) eqn:E.
  - apply byte_eqb_eq in E as ->. intros [= <- <-].
    exists []. split_and!; [done| |done]. apply not_elem_of_nil.
  - destruct (bufio.cut delim l) as [[line' rest']|] eqn:C; [|done].
    intros [= <- <-]. destruct (IH _ _ eq_refl) as (pre & -> & Hpre & ->).
    exists (x :: pre). split_and!; [done| |done].
    rewrite not_elem_of_cons. split; [|done].
    intros ->. rewrite (proj2 (byte_eqb_eq x x) eq_refl) in E. done.
Qed.

Lemma cut_None delim l : bufio.cut delim l = None -> delim ∉ l.
Proof.
  induction l as [|x l IH]; simpl; [intros _; apply not_elem_of_nil|].
  destruct (Byte.eqb x delim) eqn:E; [done|].
  destruct (bufio.cut delim l) as [[??]|]; [done|]. intros _.
  rewrite not_elem_of_cons. split; [|by apply IH].
  intros ->. rewrite (proj2 (byte_eqb_eq x x) eq_refl) in E. done.
Qed.

Lemma conn_Read_Some n chunks got rd' :
  (0 < n)%nat -> conn_Read n chunks = Some (got, rd') ->
  got ≠ [] /\ concat chunks = got ++ concat rd' /\ (length got <= n)%nat.
Proof.
  intros Hn. induction chunks as [|c chunks IH]; simpl; [done|].
  destruct c as [|x c]; [exact IH|].
  intros [= <- <-]. split_and!.
  - destruct n; [lia|done].
  - change (concat ((x :: c) :: chunks)) with ((x :: c) ++ concat chunks).
    rewrite <- (take_drop n (x :: c)) at 1.
    destruct (drop n (x :: c)) as [|y d] eqn:D.
    + by rewrite app_nil_r.
    + change (concat ((y :: d) :: chunks)) with ((y :: d) ++ concat chunks).
      by rewrite app_assoc.
  - rewrite length_take. lia.
Qed.

Lemma conn_Read_None n chunks : conn_Read n chunks = None -> concat chunks = [].
Proof.
  induction chunks as [|c chunks IH]; simpl; [done|]. by destruct c.
Qed.

Lemma defaultBufSize_pos : (0 < bufio.defaultBufSize)%nat.
Proof. unfold bufio.defaultBufSize. lia. Qed.

Lemma ReadBytes_loop_S fuel delim b frags :
  bufio.ReadBytes_loop (S fuel) delim b frags =
  match bufio.cut delim (bufio.buf b) with
  | Some (line, rest) =>
      Some (frags ++ line, None, bufio.mkReader rest (bufio.rd b) (bufio.rdErr b))
  | None =>
      if (bufio.defaultBufSize <=? length (bufio.buf b))%nat then
        bufio.ReadBytes_loop fuel delim
          (bufio.mkReader [] (bufio.rd b) (bufio.rdErr b)) (frags ++ bufio.buf b)
      else
        match conn_Read (bufio.defaultBufSize - length (bufio.buf b)) (bufio.rd b) with
        | Some (got, rd') =>
            bufio.ReadBytes_loop fuel delim
              (bufio.mkReader (bufio.buf b ++ got) rd' (bufio.rdErr b)) frags
        | None =>
            Some (frags ++ bufio.buf b, Some (bufio.rdErr b),
                  bufio.mkReader [] [] (bufio.rdErr b))
        end
  end.
Proof. reflexivity. Qed.

Lemma ReadBytes_loop_spec delim fuel : forall b frags,
  (2 * bytes_left (bufio.rd b) + length (bufio.buf b) < fuel)%nat ->
  exists res, bufio.ReadBytes_loop fuel delim b frags = Some res /\
              ReadBytes_post delim b frags res.
Proof.
  induction fuel as [|fuel IH]; intros [buf rd err] frags Hfuel; [lia|].
  rewrite ReadBytes_loop_S. cbn [bufio.buf bufio.rd bufio.rdErr] in *.
  destruct (bufio.cut delim buf) as [[line rest]|] eqn:C.
  - apply cut_Some in C as (pre & -> & Hpre & ->).
    eexists; split; [done|]. split; [done|]. exists pre.
    reader_simpl. split_and!; [done|done|].
    by rewrite <- app_assoc.
  - apply cut_None in C. pose proof defaultBufSize_pos as Hpos.
    destruct (Nat.leb_spec bufio.defaultBufSize (length buf)) as [Hfull|Hroom].
    + destruct (IH (bufio.mkReader [] rd err) (frags ++ buf))
        as ([[out e] b'] & -> & Hrd & He); [cbn [bufio.buf bufio.rd length]; lia|].
      eexists; split; [done|]. split; [done|].
      reader_simpl. destruct e as [e|].
      * destruct He as (-> & -> & Hno & Hnil). split_and!; [done| |  |done].
        -- by rewrite <- app_assoc.
        -- by rewrite not_elem_of_app.
      * destruct He as (l & -> & Hl & Hrem). exists (buf ++ l). split_and!.
        -- by rewrite <- !app_assoc.
        -- by rewrite not_elem_of_app.
        -- rewrite Hrem. by rewrite <- !app_assoc.
    + destruct (conn_Read (bufio.defaultBufSize - length buf) rd) as [[got rd']|] eqn:R.
      * apply conn_Read_Some in R as (Hgot & Hcat & _); [|lia].
        assert (0 < length got)%nat by (destruct got; [done|simpl; lia]).
        assert (bytes_left rd = length got + bytes_left rd')%nat as Hlen
          by (unfold bytes_left; rewrite Hcat, length_app; done).
        destruct (IH (bufio.mkReader (buf ++ got) rd' err) frags)
          as ([[out e] b'] & -> & Hrd & He);
          [cbn [bufio.buf bufio.rd]; rewrite length_app; lia|].
        eexists; split; [done|]. split; [done|].
        reader_simpl. rewrite Hcat. rewrite <- !app_assoc in He. exact He.
      * apply conn_Read_None in R.
        eexists; split; [done|]. split; [done|].
        reader_simpl. rewrite R, app_nil_r. done.
Qed.

Lemma ReadBytes_spec b delim :
  exists res, bufio.ReadBytes b delim = Some res /\ ReadBytes_post delim b [] res.
Proof.
  apply ReadBytes_loop_spec. unfold bufio.ReadBytes_fuel. lia.
Qed.

(** The first delimiter of a sequence is at one place only. *)
Lemma first_delim_unique (d : byte) l1 r1 l2 r2 :
  d ∉ l1 -> d ∉ l2 -> l1 ++ [d] ++ r1 = l2 ++ [d] ++ r2 -> l1 = l2 /\ r1 = r2.
Proof.
  revert l2. induction l1 as [|x l1 IH]; intros [|y l2] H1 H2 E; simpl in *.
  - by injection E.
  - injection E as <- _. exfalso. apply H2. by left.
  - injection E as -> _. exfalso. apply H1. by left.
  - injection E as -> E. apply not_elem_of_cons in H1 as [_ H1].
    apply not_elem_of_cons in H2 as [_ H2].
    destruct (IH l2 H1 H2 E) as [-> ->]. done.
Qed.

(** The bytes the reader has still to deliver start with a line: that line
    is what [ReadBytes] returns, however the connection chunks the bytes
    and whatever the buffer holds of them. *)
Lemma is_line_spec l :
  is_line l = true -> exists pre, l = pre ++ ["010"%byte] /\ "010"%byte ∉ pre.
Proof.
  unfold is_line. destruct (bufio.cut "010" l) as [[line rest]|] eqn:C; [|done].
  destruct rest; [|done]. intros _.
  apply cut_Some in C as (pre & -> & Hpre & ->). exists pre. done.
Qed.

Lemma ReadBytes_line b line rest :
  is_line line = true -> bufio.remaining b = line ++ rest ->
  exists b', bufio.ReadBytes b "010" = Some (line, None, b') /\
             bufio.remaining b' = rest /\ bufio.rdErr b' = bufio.rdErr b.
Proof.
  intros (pre & -> & Hpre)%is_line_spec Hrem.
  destruct (ReadBytes_spec b "010") as ([[out e] b'] & Hread & Herr & He).
  destruct e as [e|].
  - destruct He as (_ & _ & Hno & _). exfalso. apply Hno. rewrite Hrem.
    rewrite !elem_of_app. left; right. by left.
  - destruct He as (l & -> & Hl & Hrem'). rewrite Hrem, <- app_assoc in Hrem'.
    apply first_delim_unique in Hrem' as [E1 E2]; [|done|done].
    exists b'. by rewrite E1, E2.
Qed.

(** The bytes still to deliver have no line feed: [ReadBytes] returns them
    all, with the error of the connection. *)
Lemma ReadBytes_no_line b :
  "010"%byte ∉ bufio.remaining b ->
  exists b', bufio.ReadBytes b "010" = Some (bufio.remaining b, Some (bufio.rdErr b), b').
Proof.
  intros Hno.
  destruct (ReadBytes_spec b "010") as ([[out e] b'] & Hread & Herr & He).
  destruct e as [e|].
  - destruct He as (-> & -> & _ & _). by exists b'.
  - destruct He as (l & _ & _ & Hrem). exfalso. apply Hno. rewrite Hrem.
    rewrite !elem_of_app. right; left. by left.
Qed.

(** ** The header loop *)

Lemma parseHeaders_S fuel b req :
  parseHeaders (S fuel) b req =
  '(headerStr, err, reqReader) ← bufio.ReadBytes b "010";
  match err with
  | Some e => Some (HeaderError e reqReader)
  | None =>
      if (length headerStr =? 2)%nat then Some (Break req reqReader)
      else match parseHeader headerStr req with
           | Panic p => Some (HeaderPanic p reqReader)
           | Ok req => parseHeaders fuel reqReader req
           end
  end.
Proof. reflexivity. Qed.

Lemma parseHeaders_lines_fuel hs : forall fuel b req t rest,
  Forall (fun h => is_line h = true /\ length h ≠ 2%nat) hs ->
  is_line t = true -> length t = 2%nat ->
  bufio.remaining b = concat hs ++ t ++ rest ->
  (length (bufio.remaining b) < fuel)%nat ->
  match parse_all hs req with
  | Ok req' =>
      exists b', parseHeaders fuel b req = Some (Break req' b') /\
                 bufio.remaining b' = rest
  | Panic p => exists b', parseHeaders fuel b req = Some (HeaderPanic p b')
  end.
Proof.
  induction hs as [|h hs IH]; intros fuel b req t rest Hhs Ht Hlen Hrem Hfuel;
    (destruct fuel as [|fuel]; [lia|]); rewrite parseHeaders_S.
  - destruct (ReadBytes_line b t rest Ht Hrem) as (b' & -> & Hb' & _).
    simpl. rewrite Hlen. by exists b'.
  - apply Forall_cons in Hhs as [[Hh Hne] Hhs].
    change (concat (h :: hs)) with (h ++ concat hs) in Hrem.
    rewrite <- app_assoc in Hrem.
    destruct (ReadBytes_line b h _ Hh Hrem) as (b' & -> & Hb' & _).
    simpl. apply Nat.eqb_neq in Hne as ->.
    destruct (parseHeader h req) as [req1|p]; [|by exists b'].
    apply (IH fuel b' req1 t rest); [done..|].
    rewrite Hrem, length_app in Hfuel. rewrite Hb'.
    apply is_line_spec in Hh as (pre & -> & _).
    rewrite length_app in Hfuel. simpl in Hfuel. lia.
Qed.

(** The loop returns whatever the connection delivers. *)
Lemma parseHeaders_total : forall fuel b req,
  (length (bufio.remaining b) < fuel)%nat -> is_Some (parseHeaders fuel b req).
Proof.
  induction fuel as [|fuel IH]; intros b req Hfuel; [lia|].
  rewrite parseHeaders_S.
  destruct (ReadBytes_spec b "010") as ([[out e] b'] & -> & Herr & He). simpl.
  destruct e as [e|]; [done|].
  destruct (length out =? 2)%nat; [done|].
  destruct (parseHeader out req) as [req'|p]; [|done].
  apply IH. destruct He as (l & _ & _ & Hrem).
  rewrite Hrem, !length_app in Hfuel. simpl in Hfuel. lia.
Qed.

(** X16: the handler comes to an end on every connection whose peer
    sends finitely many bytes and then closes or fails, in whatever chunks:
    it returns or panics, and neither the loop over the header lines nor
    the reads of a line go on for ever (no loop of the model runs out of
    fuel). *)
Lemma handleConn_returns clock opts conn fs :
  is_Some (handleConn clock opts conn fs).
Proof.
  unfold handleConn.
  destruct (ReadBytes_spec (bufio.NewReader conn) "010") as ([[out e] b'] & -> & _).
  cbn [mbind option_bind].
  assert (e = Some EOF \/ e = None \/ exists e', e = Some e' /\ e' ≠ EOF)
    as [->|[->|(e' & -> & He')]]
    by (destruct e as [[]|]; eauto 6).
  3: by destruct e'.
  all: destruct (fmt.Sscanf (string_of out)) as [[[m p] v]|]; [|done].
  all: match goal with
       | |- is_Some (mbind _ (parseHeaders ?f ?b ?r)) =>
           destruct (parseHeaders_total f b r) as [h ->];
             [unfold parseHeaders_fuel; lia|]
       end.
  all: by destruct h.
Qed.

(** ** The Response Builder *)

Lemma buildResponse_after now code c :
  buildResponse now code c = bytes_of (statusLine code) ++ after_status_line now c.
Proof.
  unfold buildResponse, after_status_line.
  destruct c as [c|]; simpl; rewrite <- ?app_assoc; done.
Qed.

(** For the four codes its [switch] knows, the builder writes the response
    of the specification, whatever the content. *)
Lemma buildResponse_format now code reason c :
  reasonPhrase code = Some reason -> code ≠ 400 -> code ≠ 500 ->
  buildResponse now code c = wire_response now code reason c.
Proof.
  intros Hreason H400 H500. rewrite buildResponse_after. unfold wire_response.
  f_equal. f_equal. unfold reasonPhrase in Hreason.
  repeat match type of Hreason with
         | (if ?x =? ?y then _ else _) = _ =>
             destruct (Z.eqb_spec x y) as [->|?];
               [injection Hreason as <-; reflexivity || lia|]
         end.
  done.
Qed.

(** C2 (code bug): for the codes 400 and 500 the builder writes no
    status line at all: its output starts with the Date header, and is
    not the response of the specification. The handler does call it with
    both codes. *)
Theorem buildResponse_400_500_lack_status_line now c :
  buildResponse now statusBadRequest c = after_status_line now c /\
  buildResponse now statusInternalServerError c = after_status_line now c /\
  buildResponse now statusBadRequest c ≠ wire_response now 400 "Bad Request" c /\
  buildResponse now statusInternalServerError c
    ≠ wire_response now 500 "Internal Server Error" c.
Proof.
  rewrite !buildResponse_after. simpl. split_and!; try done.
  all: unfold wire_response; intros E; apply (f_equal length) in E;
    rewrite length_app in E; simpl in E; lia.
Qed.

(** ** The router *)

Lemma index_Some {A} (s : list A) i x : s !! i = Some x -> index s i = Ok x.
Proof. unfold index. by intros ->. Qed.

Lemma index_Ok {A} (s : list A) i x : index s i = Ok x -> s !! i = Some x.
Proof. unfold index. by destruct (s !! i) as [y|]; intros [= ->]. Qed.

Lemma index_Panic {A} (s : list A) i p :
  index s i = Panic p -> (length s <= i)%nat /\ p = IndexOutOfRange i (length s).
Proof.
  unfold index. destruct (s !! i) as [y|] eqn:E; [done|].
  apply lookup_ge_None in E. by intros [= <-].
Qed.

(** What the handler does with a GET request for [/echo...]. *)
Lemma route_GET_echo clock opts req r fs :
  method req = "GET" -> pathParts req !! 1%nat = Some "echo" ->
  route clock opts req r fs =
  mkRun [buildResponse (clock 0%nat) statusOK
           (Some (mkContent "text/plain"
                    (bytes_of (strings.Join (drop 2 (pathParts req)) "/"))));
         buildResponse (clock 1%nat) statusMethodNotAllowed None]
        fs r (Return None).
Proof.
  intros Hm Hkey. pose proof (lookup_lt_Some _ _ _ Hkey) as Hlen.
  unfold route, slice_from. rewrite Hm, (index_Some _ _ _ Hkey).
  destruct (Nat.ltb_spec (length (pathParts req)) 2) as [?|_]; [lia|].
  destruct (Nat.leb_spec 2 (length (pathParts req))) as [_|?]; [|lia].
  reflexivity.
Qed.

(** C7: a GET request whose routing key is [echo] is answered with
    200 OK, content type text/plain, and as body the path segments from
    index 2 on, rejoined with [/]; without such segments, or with an empty
    one only, the body is empty. (The handler then goes on to write the
    405 response of C1; this is about the response of the route.) *)
Theorem GET_echo_response clock opts req r fs :
  method req = "GET" -> pathParts req !! 1%nat = Some "echo" ->
  let echoed := strings.Join (drop 2 (pathParts req)) "/" in
  written (route clock opts req r fs) !! 0%nat
    = Some (wire_response (clock 0%nat) 200 "OK"
              (Some (mkContent "text/plain" (bytes_of echoed)))) /\
  outcome_of (route clock opts req r fs) = Return None /\
  (drop 2 (pathParts req) = [] \/ drop 2 (pathParts req) = [""] -> echoed = "").
Proof.
  intros Hm Hkey echoed. rewrite (route_GET_echo _ _ _ _ _ Hm Hkey).
  cbn [written outcome_of]. split_and!; [|done|].
  - rewrite (buildResponse_format _ statusOK "OK"); done.
  - unfold echoed. by intros [-> | ->].
Qed.

Lemma GET_echo_response_witness :
  let req := mkRequest "GET" "HTTP/1.1" "" "" "/echo/foo/bar" [""; "echo"; "foo"; "bar"] 0 in
  let r := bufio.mkReader [] [] EOF in
  let fs := os.mkFilesystem ∅ (fun _ => true) false in
  method req = "GET" /\ pathParts req !! 1%nat = Some "echo" /\
  written (route (fun _ => "now") (mkOptions "./" "") req r fs) !! 0%nat
    = Some (wire_response "now" 200 "OK"
              (Some (mkContent "text/plain" (bytes_of "foo/bar")))).
Proof.
  intros req r fs. split; [reflexivity|]. split; [reflexivity|].
  apply (GET_echo_response (fun _ => "now") (mkOptions "./" "") req r fs);
    reflexivity.
Defined.

(** C1 (code bug): the switch of the GET requests has no [return] after
    it, so a GET route that does not fail is followed by the write of the
    405 response: [GET /] gets two responses. *)
Theorem GET_root_is_answered_twice clock opts fs :
  written <$> handleConn clock opts (sends [http ["GET / HTTP/1.1"; ""] ""]) fs
  = Some [buildResponse (clock 0%nat) statusOK None;
          buildResponse (clock 1%nat) statusMethodNotAllowed None].
Proof. reflexivity. Qed.

(** C3 (code bug): the files routes read [pathParts[2]] whatever the
    number of segments: [GET /files] and [POST /files] panic with an index
    out of range, and nothing is written. *)
Theorem files_route_without_name_panics clock opts fs :
  let get := handleConn clock opts (sends [http ["GET /files HTTP/1.1"; ""] ""]) fs in
  let post := handleConn clock opts (sends [http ["POST /files HTTP/1.1"; ""] ""]) fs in
  outcome_of <$> get = Some (Panicked (IndexOutOfRange 2 2)) /\
  written <$> get = Some [] /\
  outcome_of <$> post = Some (Panicked (IndexOutOfRange 2 2)) /\
  written <$> post = Some [].
Proof. split_and!; reflexivity. Qed.

(** One step of the case analysis of [route]: a branch is taken, and what
    is known of it is put in terms of the request. *)
Ltac route_step :=
  match goal with
  | H : index _ _ = Ok _ |- _ => apply index_Ok in H
  | H : index _ _ = Panic _ |- _ => apply index_Panic in H as [? ->]
  | H : String.eqb _ _ = true |- _ => apply String.eqb_eq in H; subst
  | H : (_ <? _)%nat = false |- _ => apply Nat.ltb_ge in H
  | H : (_ <? _)%nat = true |- _ => apply Nat.ltb_lt in H
  | H : Next _ = Next _ |- _ => injection H as <-
  | H : Exit _ = Exit _ |- _ => injection H as <-
  | H : Next _ = Exit _ |- _ => discriminate H
  | H : Exit _ = Next _ |- _ => discriminate H
  | H : (_ <=? _)%nat = false |- _ => apply Nat.leb_gt in H
  | |- context [match ?x with _ => _ end] => destruct x eqn:?
  | H : context [match ?x with _ => _ end] |- _ => destruct x eqn:?
  | _ => progress (cbn [written outcome_of fsys reader] in *)
  end.

(** Every GET request that the router handles without a failing return
    is answered twice, the second time with 405. *)
Lemma route_GET_falls_through clock opts req r fs :
  method req = "GET" -> (2 <= length (pathParts req))%nat ->
  outcome_of (route clock opts req r fs) = Return None ->
  exists first,
    written (route clock opts req r fs)
    = [first; buildResponse (clock 1%nat) statusMethodNotAllowed None].
Proof.
  intros Hm Hlen. unfold route, slice_from. rewrite Hm.
  change (String.eqb "GET" methodPost) with false.
  change (String.eqb "GET" methodGet) with true. cbv iota.
  repeat route_step; intros Hout; try done; try lia; unfold respond; eauto.
Qed.

(** The router panics on the files routes only: when the path has no
    third segment, or when a POST declares a length no slice can have. *)
Lemma route_panics clock opts req r fs p :
  outcome_of (route clock opts req r fs) = Panicked p ->
  pathParts req !! 1%nat = Some "files" /\
  ((length (pathParts req) = 2%nat /\ p = IndexOutOfRange 2 2) \/
   (method req = "POST" /\ p = MakeSliceLenOutOfRange /\
    (contentLength req < 0 \/ maxAlloc < contentLength req))).
Proof.
  unfold route, slice_from, make_bytes.
  repeat route_step; intros Hout; simplify_eq; try done; try lia.
  all: split; [done|].
  - left. assert (length (pathParts req) = 2%nat) as -> by lia. done.
  - right. split_and!; [done..|].
    match goal with
    | H : _ || _ = true |- _ => apply orb_true_iff in H as [H|H]; lia
    end.
  - left. assert (length (pathParts req) = 2%nat) as -> by lia. done.
Qed.

(** ** The header parser *)

Lemma Split_nonempty s sep : exists piece pieces, strings.Split s sep = piece :: pieces.
Proof.
  induction s as [|c s (piece & pieces & IH)]; simpl; [by eauto|].
  destruct (Ascii.eqb c sep); [by eauto|]. rewrite IH. eauto.
Qed.

(** [Split] cuts at every separator: its first piece is the text before
    the first one, and the others are the pieces of the text after it. *)
Lemma Split_split_first s sep k v :
  split_first s sep = Some (k, v) -> strings.Split s sep = k :: strings.Split v sep.
Proof.
  revert k. induction s as [|c s IH]; intros k; simpl; [done|].
  destruct (Ascii.eqb c sep); [by intros [= <- <-]|].
  destruct (split_first s sep) as [[k' v']|]; [|done].
  intros [= <- <-]. by rewrite (IH k' eq_refl).
Qed.

Lemma Split_no_sep s sep : split_first s sep = None -> strings.Split s sep = [s].
Proof.
  induction s as [|c s IH]; simpl; [done|].
  destruct (Ascii.eqb c sep); [done|].
  destruct (split_first s sep) as [[k' v']|]; [done|].
  intros _. by rewrite IH.
Qed.

Lemma Split_second s k v :
  split_first s ":" = Some (k, v) ->
  exists pieces, strings.Split s ":" = k :: up_to_colon v :: pieces.
Proof.
  intros H. rewrite (Split_split_first _ _ _ _ H). unfold up_to_colon.
  destruct (split_first v ":") as [[v1 v2]|] eqn:E.
  - rewrite (Split_split_first _ _ _ _ E). eauto.
  - rewrite (Split_no_sep _ _ E). eauto.
Qed.

(** The parser on a line with a colon: the key is the text before the
    first colon, and what is stored is the text between the first colon
    and the second. It does not panic. *)
Lemma parseHeader_with_colon line req k v :
  split_first (string_of line) ":" = Some (k, v) ->
  parseHeader line req =
  let key := strings.Trim k (String LF (String CR " ")) in
  let value := strings.Trim (up_to_colon v) (String CR (String LF " ")) in
  if String.eqb key "Host" then Ok (set_host value req)
  else if String.eqb key "User-Agent" then Ok (set_userAgent value req)
  else if String.eqb key "Content-Length"
       then Ok (set_contentLength (strconv.Atoi value).1 req)
  else Ok req.
Proof.
  intros H. destruct (Split_second _ _ _ H) as (pieces & Hsplit).
  unfold parseHeader. rewrite Hsplit. cbn [index lookup list_lookup].
  cbv zeta. by destruct (strconv.Atoi _).
Qed.

(** The parser on a line without a colon: it panics when the line is one
    of the three keys, and ignores any other line. *)
Lemma parseHeader_without_colon line req :
  split_first (string_of line) ":" = None ->
  parseHeader line req =
  let key := strings.Trim (string_of line) (String LF (String CR " ")) in
  if String.eqb key "Host" || String.eqb key "User-Agent"
     || String.eqb key "Content-Length"
  then Panic (IndexOutOfRange 1 1) else Ok req.
Proof.
  intros H. unfold parseHeader. rewrite (Split_no_sep _ _ H).
  cbn [index lookup list_lookup length]. cbv zeta.
  by repeat destruct (String.eqb _ _).
Qed.

(** C10 (code bug): a header line that is one of the three keys
    without a colon makes the parser read [parts[1]] of a one-element
    slice: it panics, and so does the handler, which writes nothing. *)
Theorem parseHeader_key_without_colon_panics req clock opts fs :
  parseHeader (header_line "Host") req = Panic (IndexOutOfRange 1 1) /\
  parseHeader (header_line "User-Agent") req = Panic (IndexOutOfRange 1 1) /\
  parseHeader (header_line "Content-Length") req = Panic (IndexOutOfRange 1 1) /\
  let r := handleConn clock opts (sends [http ["GET / HTTP/1.1"; "Host"; ""] ""]) fs in
  outcome_of <$> r = Some (Panicked (IndexOutOfRange 1 1)) /\
  written <$> r = Some [].
Proof. cbv zeta. split_and!; reflexivity. Qed.

(** C6 (code bug): the parser splits the line at EVERY colon and
    stores the piece after the first one, so a value with a colon in it is
    cut short: of [Host: localhost:4221] it stores [localhost], of
    [User-Agent: a:b] it stores [a]. *)
Theorem parseHeader_cuts_value_at_second_colon req :
  header_value (header_line "Host: localhost:4221") = Some "localhost:4221" /\
  parseHeader (header_line "Host: localhost:4221") req = Ok (set_host "localhost" req) /\
  header_value (header_line "User-Agent: a:b") = Some "a:b" /\
  parseHeader (header_line "User-Agent: a:b") req = Ok (set_userAgent "a" req).
Proof. split_and!; reflexivity. Qed.

(** X17: a value without a colon is stored whole. For a line with one
    colon only, the parser stores, under the key before the colon (when it
    is one of the three it knows), all that follows the colon, trimmed;
    as a number for Content-Length. *)
Lemma parseHeader_stores_value line req k v :
  split_first (string_of line) ":" = Some (k, v) -> split_first v ":" = None ->
  exists key value,
    header_key line = Some key /\ header_value line = Some value /\
    parseHeader line req =
    if String.eqb key "Host" then Ok (set_host value req)
    else if String.eqb key "User-Agent" then Ok (set_userAgent value req)
    else if String.eqb key "Content-Length"
         then Ok (set_contentLength (strconv.Atoi value).1 req)
    else Ok req.
Proof.
  intros E Hno. unfold header_key, header_value. rewrite E.
  eexists _, _. split_and!; [done..|].
  rewrite (parseHeader_with_colon _ _ _ _ E). unfold up_to_colon. by rewrite Hno.
Qed.

(** ** Strings without a character *)

Lemma lacks_cons c d s :
  lacks c (String d s) = negb (Ascii.eqb c d) && lacks c s.
Proof. unfold lacks. simpl. by rewrite negb_orb. Qed.

Lemma lacks_split_first c s :
  lacks c s = true <-> split_first s c = None.
Proof.
  induction s as [|d s IH]; [done|]. rewrite lacks_cons. simpl.
  rewrite Ascii.eqb_sym. destruct (Ascii.eqb d c); [done|]. cbn [negb andb].
  rewrite IH. by destruct (split_first s c) as [[??]|].
Qed.

(** ** The integer parser *)

Lemma parseUint_loop_error s : forall n un e,
  strconv.parseUint_loop s n = (un, Some e) ->
  (e = ErrSyntax /\ un = 0) \/ (e = ErrRange /\ un = strconv.maxUint64).
Proof.
  induction s as [|c s IH]; intros n un e; simpl; [done|].
  destruct (negb (strconv.is_digit c)); [intros [= <- <-]; by left|].
  destruct (n >=? _); [intros [= <- <-]; by right|].
  destruct (_ >? _); [intros [= <- <-]; by right|].
  apply IH.
Qed.

Lemma ParseUint_error s un e :
  strconv.ParseUint s = (un, Some e) ->
  (e = ErrSyntax /\ un = 0) \/ (e = ErrRange /\ un = strconv.maxUint64).
Proof.
  destruct s as [|c s]; [intros [= <- <-]; by left|]. apply parseUint_loop_error.
Qed.

(** What [Atoi] returns with an error: 0 for a number that is malformed,
    the nearest bound of the 64-bit integers for one out of range. *)
Lemma Atoi_error s n e :
  strconv.Atoi s = (n, Some e) ->
  (e = ErrSyntax /\ n = 0) \/
  (e = ErrRange /\ (n = 2 ^ 63 - 1 \/ n = - 2 ^ 63)).
Proof.
  unfold strconv.Atoi, strconv.ParseInt.
  destruct s as [|c s]; [intros [= <- <-]; by left|].
  set (neg := Ascii.eqb c "-").
  set (digits := if Ascii.eqb c "+" || neg then s else String c s).
  destruct (strconv.ParseUint digits) as [un [e'|]] eqn:E.
  - apply ParseUint_error in E as [[-> ->]|[-> ->]]; [intros [= <- <-]; by left|].
    cbv zeta. unfold strconv.maxUint64.
    destruct neg; simpl; intros [= <- <-]; right; split; auto.
  - cbv zeta.
    destruct (negb neg && (un >=? 2 ^ 63)); [intros [= <- <-]; right; auto|].
    destruct (neg && (un >? 2 ^ 63)); [intros [= <- <-]; right; auto|].
    done.
Qed.

(** C5, as stated, fails: after a Content-Length of 7, the line
    [Content-Length: abc], whose value is no number, sets the field to 0. *)
Lemma bad_contentLength_overwrites_previous :
  let line := header_line "Content-Length: abc" in
  let req := set_contentLength 7 zero_request in
  header_key line = Some "Content-Length" /\
  header_value line = Some "abc" /\ nonneg_integer "abc" = false /\
  exists req', parseHeader line req = Ok req' /\
               contentLength req' = 0 /\ contentLength req' ≠ contentLength req.
Proof.
  cbv zeta. split_and!; [reflexivity..|].
  eexists. split_and!; [reflexivity|reflexivity|done].
Qed.

(** A character that is not of the cutset is neither removed nor added
    by the trimming. *)
Lemma contains_other c d cutset :
  strings.contains c cutset = false -> strings.contains d cutset = true ->
  Ascii.eqb c d = false.
Proof.
  intros Hc Hd. destruct (Ascii.eqb_spec c d) as [->|]; [|done].
  by rewrite Hd in Hc.
Qed.

Lemma lacks_TrimLeft c s cutset :
  strings.contains c cutset = false ->
  lacks c (strings.TrimLeft s cutset) = lacks c s.
Proof.
  intros Hc. induction s as [|d s IH]; [done|]. cbn [strings.TrimLeft].
  destruct (strings.contains d cutset) eqn:Hd; [|done].
  by rewrite IH, lacks_cons, (contains_other _ _ _ Hc Hd).
Qed.

Lemma lacks_TrimRight c s cutset :
  strings.contains c cutset = false ->
  lacks c (strings.TrimRight s cutset) = lacks c s.
Proof.
  intros Hc. induction s as [|d s IH]; [done|]. cbn [strings.TrimRight].
  destruct (strings.TrimRight s cutset) as [|e t].
  - rewrite lacks_cons, <- IH. change (lacks c EmptyString) with true.
    rewrite andb_true_r.
    destruct (strings.contains d cutset) eqn:Hd.
    + by rewrite (contains_other _ _ _ Hc Hd).
    + by rewrite lacks_cons, andb_true_r.
  - by rewrite !(lacks_cons c d), IH.
Qed.

Lemma lacks_Trim c s cutset :
  strings.contains c cutset = false ->
  lacks c (strings.Trim s cutset) = lacks c s.
Proof.
  intros Hc. unfold strings.Trim. by rewrite lacks_TrimRight, lacks_TrimLeft.
Qed.

(** C5 (amended): for a line whose key is Content-Length and whose
    value does not parse as a non-negative integer, the parser completes,
    surfaces no error, and OVERWRITES the field, whatever it held, with a
    number that the line alone determines. For a value without a further
    colon that number is the one [strconv.Atoi] returns for the value: 0
    for a malformed number, the nearest bound of the 64-bit integers for
    one out of range, the number itself for a negative one. *)
Theorem parseHeader_bad_contentLength line value :
  header_key line = Some "Content-Length" ->
  header_value line = Some value ->
  nonneg_integer value = false ->
  exists n,
    (forall req, parseHeader line req = Ok (set_contentLength n req)) /\
    (lacks ":" value = true ->
     (strconv.Atoi value = (n, Some ErrSyntax) /\ n = 0) \/
     (strconv.Atoi value = (n, Some ErrRange) /\ (n = 2 ^ 63 - 1 \/ n = - 2 ^ 63)) \/
     (strconv.Atoi value = (n, None) /\ n < 0)).
Proof.
  unfold header_key, header_value, nonneg_integer.
  destruct (split_first (string_of line) ":") as [[k v]|] eqn:E; [|done].
  intros [= Hkey] [= <-] Hbad.
  exists (strconv.Atoi (strings.Trim (up_to_colon v) (String CR (String LF " ")))).1.
  split.
  - intros req. rewrite (parseHeader_with_colon _ _ _ _ E). cbv zeta.
    by rewrite Hkey.
  - intros Hcolon. rewrite lacks_Trim in Hcolon by reflexivity.
    apply lacks_split_first in Hcolon. unfold up_to_colon. rewrite Hcolon.
    destruct (strconv.Atoi _) as [n [e|]] eqn:Hatoi; cbn [fst].
    + destruct (Atoi_error _ _ _ Hatoi) as [[-> ->]|[-> Hn]]; auto.
    + right. right. split; [done|]. by apply Z.leb_gt.
Qed.

Lemma parseHeader_bad_contentLength_witness :
  let line := header_line "Content-Length: -5" in
  header_key line = Some "Content-Length" /\
  header_value line = Some "-5" /\
  nonneg_integer "-5" = false /\
  parseHeader line (set_contentLength 7 zero_request)
  = Ok (set_contentLength (-5) zero_request).
Proof.
  cbv zeta. split_and!; [reflexivity..|].
  destruct (parseHeader_bad_contentLength
              (header_line "Content-Length: -5") "-5" eq_refl eq_refl eq_refl)
    as (n & Hparse & Hn).
  rewrite Hparse.
  destruct (Hn eq_refl) as [[H _]|[[H _]|[H _]]]; vm_compute in H;
    [discriminate H|discriminate H|].
  injection H as <-. reflexivity.
Defined.

(** ** The header loop and the blank line *)

(** C9, as stated, fails: the two-byte line [X] + line feed is not the
    CRLF pair, and yet it ends the loop. The Host line after it is
    neither read nor parsed, where the claim has both lines passed to the
    parser. *)
Lemma two_byte_line_ends_headers :
  let x := bytes_of (String "X" (String LF EmptyString)) in
  let b := bufio.NewReader (mkConn [x ++ bytes_of (http ["Host: h"; ""] "")] EOF) in
  x ≠ bytes_of CRLF /\
  parse_all [x; header_line "Host: h"] zero_request = Ok (set_host "h" zero_request) /\
  parseHeaders (parseHeaders_fuel b) b zero_request
  = Some (Break zero_request (bufio.mkReader (bytes_of (http ["Host: h"; ""] "")) [] EOF)).
Proof. cbv zeta. split_and!; [done|reflexivity..]. Qed.

(** C9 (amended): the header loop ends exactly at the first line that
    is TWO BYTES long, the CRLF pair or any other byte before a line feed.
    Whatever the chunks and the buffer: when the bytes to come are lines
    [hs] of other lengths, then a two-byte line [t], then [rest], the loop
    passes the lines [hs] to the header parser, in order, and leaves [rest]
    unread; it stops before that only if the parser panics. *)
Theorem header_loop_ends_at_two_byte_line b req hs t rest :
  Forall (fun h => is_line h = true /\ length h ≠ 2%nat) hs ->
  is_line t = true -> length t = 2%nat ->
  bufio.remaining b = concat hs ++ t ++ rest ->
  match parse_all hs req with
  | Ok req' =>
      exists b', parseHeaders (parseHeaders_fuel b) b req = Some (Break req' b') /\
                 bufio.remaining b' = rest
  | Panic p =>
      exists b', parseHeaders (parseHeaders_fuel b) b req = Some (HeaderPanic p b')
  end.
Proof.
  intros Hhs Ht Hlen Hrem. apply (parseHeaders_lines_fuel hs _ b req t rest); try done.
  unfold parseHeaders_fuel. lia.
Qed.

Lemma header_loop_ends_at_two_byte_line_witness :
  let hs := [header_line "Host: h"; header_line "User-Agent: curl"] in
  let t := bytes_of CRLF in
  let rest := bytes_of "hello" in
  let b := bufio.mkReader (bytes_of "Host")
             [bytes_of (": h" +:+ CRLF); concat (drop 1 hs) ++ t; rest] EOF in
  Forall (fun h => is_line h = true /\ length h ≠ 2%nat) hs /\
  is_line t = true /\ length t = 2%nat /\
  bufio.remaining b = concat hs ++ t ++ rest /\
  exists b', parseHeaders (parseHeaders_fuel b) b zero_request
             = Some (Break (set_userAgent "curl" (set_host "h" zero_request)) b') /\
             bufio.remaining b' = rest.
Proof.
  intros hs t rest b.
  assert (Forall (fun h => is_line h = true /\ length h ≠ 2%nat) hs) as Hhs
    by (repeat constructor; simpl; lia).
  split_and!; [exact Hhs|reflexivity..|].
  exact (header_loop_ends_at_two_byte_line b zero_request hs t rest
           Hhs eq_refl eq_refl eq_refl).
Defined.

(** ** The files routes *)

(** C4 (code bug): the body is read with ONE call of [Read], which
    returns what is at hand without an error. A POST that declares five
    bytes and delivers two is answered 201 Created, and the file gets the
    two bytes and three zero bytes; the claim has a 500 here. *)
Theorem short_body_is_stored_and_created clock :
  let conn :=
    sends [http ["POST /files/a.txt HTTP/1.1"; "Content-Length: 5"; ""] "he"] in
  let r := handleConn clock the_opts conn (empty_fs false) in
  written <$> r = Some [buildResponse (clock 0%nat) statusCreated None] /\
  outcome_of <$> r = Some (Return None) /\
  (r ≫= fun r => os.data <$> os.files (fsys r) !! "./a.txt")
  = Some (bytes_of "he" ++ [x00; x00; x00]).
Proof. cbv zeta. split_and!; reflexivity. Qed.

(** C8 (code bug): two defects break the round trip. The file is
    created with the permission bits of [fs.ModeAppend], which are none,
    so a process that is not the superuser cannot read back what it has
    just stored: the GET is answered 404. And the body is read with one
    [Read] (see C4): a body that arrives after the headers, in a chunk of
    its own, is stored cut short and padded with zero bytes, and that is
    what the GET returns. *)
Theorem files_round_trip_fails clock :
  let post body := http ["POST /files/a.txt HTTP/1.1"; "Content-Length: 5"; ""] body in
  let get := sends [http ["GET /files/a.txt HTTP/1.1"; ""] ""] in
  (r1 ← handleConn clock the_opts (sends [post "hello"]) (empty_fs false);
   r2 ← handleConn clock the_opts get (fsys r1);
   Some (written r1, written r2, outcome_of r2))
  = Some ([buildResponse (clock 0%nat) statusCreated None],
          [buildResponse (clock 0%nat) statusNotFound None],
          Return (Some (Errorf "error reading a.txt" EACCES))) /\
  (r1 ← handleConn clock the_opts (sends [post "he"; "llo"]) (empty_fs true);
   r2 ← handleConn clock the_opts get (fsys r1);
   Some (written r1, written r2 !! 0%nat))
  = Some ([buildResponse (clock 0%nat) statusCreated None],
          Some (buildResponse (clock 0%nat) statusOK
                  (Some (mkContent contentTypeOctetStream
                           (bytes_of "he" ++ [x00; x00; x00]))))).
Proof. cbv zeta. split_and!; reflexivity. Qed.

Lemma copy_into_zeros n got :
  copy_into (replicate n x00) got = got ++ replicate (n - length got) x00.
Proof. unfold copy_into. by rewrite drop_replicate. Qed.

(** What the handler does with a POST to [/files/<name>] whose declared
    length a slice can have: one [Read], a 500 for its error, and else the
    write of the slice, 201 when that succeeds and 500 when it fails. *)
Lemma route_POST_files clock opts req r fs name n :
  method req = "POST" ->
  pathParts req !! 1%nat = Some "files" -> pathParts req !! 2%nat = Some name ->
  contentLength req = Z.of_nat n -> Z.of_nat n <= maxAlloc ->
  route clock opts req r fs =
  let '(got, err, r') := bufio.Read r n in
  match err with
  | Some e =>
      mkRun [buildResponse (clock 0%nat) statusInternalServerError None] fs r'
            (Return (Some (Errorf "error parsing request" e)))
  | None =>
      let '(fs', werr) :=
        os.WriteFile (directory opts +:+ name)
                     (got ++ replicate (n - length got) x00) os.ModeAppend fs in
      match werr with
      | Some e =>
          mkRun [buildResponse (clock 0%nat) statusInternalServerError None] fs' r'
                (Return (Some (Errorf ("error writing " +:+ name) e)))
      | None =>
          mkRun [buildResponse (clock 0%nat) statusCreated None] fs' r' (Return None)
      end
  end.
Proof.
  intros Hm Hkey Hname Hlen Hmax.
  pose proof (lookup_lt_Some _ _ _ Hname) as Hparts.
  unfold route, make_bytes. rewrite Hm, Hlen, Nat2Z.id.
  rewrite (index_Some _ _ _ Hkey), (index_Some _ _ _ Hname).
  destruct (Nat.ltb_spec (length (pathParts req)) 2) as [?|_]; [lia|].
  destruct (Z.ltb_spec (Z.of_nat n) 0) as [?|_]; [lia|].
  destruct (Z.ltb_spec maxAlloc (Z.of_nat n)) as [?|_]; [lia|].
  change (String.eqb "POST" methodPost) with true.
  change (String.eqb "files" "files") with true. cbv iota. cbn [orb].
  rewrite length_replicate.
  destruct (bufio.Read r n) as [[got err] r'].
  destruct err as [e|]; [done|]. rewrite copy_into_zeros.
  destruct (os.WriteFile _ _ _ _) as [fs' [e|]]; done.
Qed.

(** A [Read] for what the buffer already holds returns it. *)
Lemma Read_buffered r body :
  take (length body) (bufio.buf r) = body ->
  exists r', bufio.Read r (length body) = (body, None, r').
Proof.
  intros Htake. unfold bufio.Read. destruct body as [|x body]; [by eauto|].
  cbn [length Nat.eqb]. destruct (bufio.buf r) as [|y buf] eqn:E; [done|].
  cbn [length] in Htake. rewrite Htake. eauto.
Qed.

(** Where the round trip of C8 does hold: the body is in the buffer when
    the handler comes to read it, and the process may write and read the
    file, as the superuser or through the permissions of a file that
    exists. The GET then returns the stored bytes unchanged (in its first
    response, see C1). *)
Lemma files_round_trip_buffered clock opts post get r r2 fs name body :
  method post = "POST" ->
  pathParts post !! 1%nat = Some "files" -> pathParts post !! 2%nat = Some name ->
  contentLength post = Z.of_nat (length body) -> Z.of_nat (length body) <= maxAlloc ->
  take (length body) (bufio.buf r) = body ->
  (os.superuser fs = true /\
   (is_Some (os.files fs !! (directory opts +:+ name))
    \/ os.creatable fs (directory opts +:+ name) = true)) \/
  (exists f, os.files fs !! (directory opts +:+ name) = Some f /\
             Z.testbit (os.mode f) 7 = true /\ Z.testbit (os.mode f) 8 = true) ->
  method get = "GET" ->
  pathParts get !! 1%nat = Some "files" -> pathParts get !! 2%nat = Some name ->
  let stored := route clock opts post r fs in
  written stored = [buildResponse (clock 0%nat) statusCreated None] /\
  written (route clock opts get r2 (fsys stored)) !! 0%nat
  = Some (buildResponse (clock 0%nat) statusOK
            (Some (mkContent contentTypeOctetStream body))).
Proof.
  intros Hm Hkey Hname Hlen Hmax Hbuf Hfs Hm' Hkey' Hname' stored.
  unfold stored. rewrite (route_POST_files _ _ _ _ _ name (length body)); try done.
  destruct (Read_buffered r body Hbuf) as (r' & ->).
  rewrite Nat.sub_diag, app_nil_r.
  assert (exists fs', os.WriteFile (directory opts +:+ name) body os.ModeAppend fs
                      = (fs', None) /\
                      os.ReadFile (directory opts +:+ name) fs' = (body, None))
    as (fs' & -> & Hread).
  { unfold os.WriteFile, os.ReadFile, os.may_write, os.may_read, os.set_file.
    destruct Hfs as [[Hroot [[f Hf]|Hnew]]|(f & Hf & Hw & Hr)].
    - rewrite Hf, Hroot. eexists; split; [done|].
      cbn [os.files os.superuser os.mode os.data].
      by rewrite lookup_insert_eq, ?Hroot.
    - rewrite Hroot, Hnew. destruct (os.files fs !! _); (eexists; split; [done|]);
        cbn [os.files os.superuser os.mode os.data orb];
        by rewrite lookup_insert_eq, ?Hroot.
    - rewrite Hf, Hw, orb_true_r. eexists; split; [done|].
      cbn [os.files os.superuser os.mode os.data].
      rewrite lookup_insert_eq. cbn [os.mode os.data]. by rewrite Hr, orb_true_r. }
  split; [done|]. cbn [fsys].
  pose proof (lookup_lt_Some _ _ _ Hname') as Hparts.
  unfold route. rewrite Hm', (index_Some _ _ _ Hkey'), (index_Some _ _ _ Hname').
  destruct (Nat.ltb_spec (length (pathParts get)) 2) as [?|_]; [lia|].
  change (String.eqb "GET" methodPost) with false.
  change (String.eqb "GET" methodGet) with true. cbv iota.
  change (String.eqb "files" "") with false.
  change (String.eqb "files" "echo") with false.
  change (String.eqb "files" "user-agent") with false.
  change (String.eqb "files" "files") with true. cbv iota.
  rewrite Hread. reflexivity.
Qed.

(** ** The requests of the specification, end to end *)

Example GET_echo_foo_bar clock opts fs :
  written <$> handleConn clock opts
                (sends [http ["GET /echo/foo/bar HTTP/1.1"; "Host: localhost"; ""] ""]) fs
  = Some [buildResponse (clock 0%nat) statusOK
            (Some (mkContent "text/plain" (bytes_of "foo/bar")));
          buildResponse (clock 1%nat) statusMethodNotAllowed None].
Proof. reflexivity. Qed.

Example GET_echo_without_segments clock opts fs :
  written <$> handleConn clock opts (sends [http ["GET /echo/ HTTP/1.1"; ""] ""]) fs
  = Some [buildResponse (clock 0%nat) statusOK (Some (mkContent "text/plain" []));
          buildResponse (clock 1%nat) statusMethodNotAllowed None].
Proof. reflexivity. Qed.

Example GET_user_agent clock opts fs :
  written <$> handleConn clock opts
                (sends [http ["GET /user-agent HTTP/1.1"; "User-Agent: test-agent/1.0"; ""] ""])
                fs
  = Some [buildResponse (clock 0%nat) statusOK
            (Some (mkContent "text/plain" (bytes_of "test-agent/1.0")));
          buildResponse (clock 1%nat) statusMethodNotAllowed None].
Proof. reflexivity. Qed.

Example GET_unknown_path clock opts fs :
  written <$> handleConn clock opts (sends [http ["GET /nope HTTP/1.1"; ""] ""]) fs
  = Some [buildResponse (clock 0%nat) statusNotFound None;
          buildResponse (clock 1%nat) statusMethodNotAllowed None].
Proof. reflexivity. Qed.

Example DELETE_root clock opts fs :
  written <$> handleConn clock opts (sends [http ["DELETE / HTTP/1.1"; ""] ""]) fs
  = Some [buildResponse (clock 0%nat) statusMethodNotAllowed None].
Proof. reflexivity. Qed.

Example GET_missing_file clock :
  let r := handleConn clock the_opts
             (sends [http ["GET /files/missing.txt HTTP/1.1"; ""] ""]) (empty_fs true) in
  written <$> r = Some [buildResponse (clock 0%nat) statusNotFound None] /\
  outcome_of <$> r = Some (Return (Some (Errorf "error reading missing.txt" ENOENT))).
Proof. cbv zeta. split; reflexivity. Qed.

Example path_without_slash clock opts fs :
  written <$> handleConn clock opts (sends [http ["GET nope HTTP/1.1"; ""] ""]) fs
  = Some [buildResponse (clock 0%nat) statusBadRequest None].
Proof. reflexivity. Qed.

Example request_line_of_two_words clock opts fs :
  let r := handleConn clock opts (sends [http ["GET /"; ""] ""]) fs in
  written <$> r = Some [] /\
  outcome_of <$> r = Some (Return (Some (Errorf "error reading request string" ErrScan))).
Proof. cbv zeta. split; reflexivity. Qed.

Example stream_closed_in_the_headers clock opts fs :
  let r := handleConn clock opts (sends ["GET / HTTP/1.1" +:+ CRLF +:+ "Host: h"]) fs in
  written <$> r = Some [] /\
  outcome_of <$> r = Some (Return (Some (Errorf "error reading header line bytes" EOF))).
Proof. cbv zeta. split; reflexivity. Qed.

(** The round trip as the superuser, with the request in one chunk. *)
Example POST_then_GET_as_superuser clock :
  (r1 ← handleConn clock the_opts
          (sends [http ["POST /files/a.txt HTTP/1.1"; "Content-Length: 5"; ""] "hello"])
          (empty_fs true);
   r2 ← handleConn clock the_opts
          (sends [http ["GET /files/a.txt HTTP/1.1"; ""] ""]) (fsys r1);
   Some (written r1, written r2))
  = Some ([buildResponse (clock 0%nat) statusCreated None],
          [buildResponse (clock 0%nat) statusOK
             (Some (mkContent contentTypeOctetStream (bytes_of "hello")));
           buildResponse (clock 1%nat) statusMethodNotAllowed None]).
Proof. reflexivity. Qed.

(** * More of the handler *)

(** ** Strings as bytes *)

Lemma bytes_of_app (a b : string) : bytes_of (a +:+ b) = bytes_of a ++ bytes_of b.
Proof.
  unfold bytes_of, String.list_byte_of_string.
  induction a as [|c a IH]; simpl; [done|]. by f_equal.
Qed.

Lemma bytes_of_cons c (s : string) :
  bytes_of (String c s) = byte_of_ascii c :: bytes_of s.
Proof. reflexivity. Qed.

Lemma append_cons c (a b : string) : String c a +:+ b = String c (a +:+ b).
Proof. reflexivity. Qed.

Lemma append_assoc (a b c : string) : (a +:+ b) +:+ c = a +:+ (b +:+ c).
Proof.
  induction a as [|x a IH]; [done|]. by rewrite !append_cons, IH.
Qed.

Lemma string_of_bytes_of (s : string) : string_of (bytes_of s) = s.
Proof. apply String.string_of_list_byte_of_string. Qed.

Lemma byte_of_ascii_LF c : Byte.eqb (byte_of_ascii c) "010" = Ascii.eqb c LF.
Proof. by destruct c as [[] [] [] [] [] [] [] []]. Qed.

Lemma lacks_app c a b : lacks c (a +:+ b) = lacks c a && lacks c b.
Proof.
  induction a as [|d a IH]; [done|].
  by rewrite append_cons, !lacks_cons, IH, andb_assoc.
Qed.

(** The first line of bytes that start with a string without a line feed
    and then have one. *)
Lemma cut_bytes_of s rest :
  lacks LF s = true ->
  bufio.cut "010" (bytes_of s ++ "010"%byte :: rest)
  = Some (bytes_of s ++ ["010"%byte], rest).
Proof.
  induction s as [|c s IH]; [done|].
  rewrite lacks_cons. intros [Hc Hs]%andb_prop.
  rewrite bytes_of_cons. cbn [app bufio.cut].
  rewrite byte_of_ascii_LF, Ascii.eqb_sym.
  apply negb_true_iff in Hc as ->. by rewrite (IH Hs).
Qed.

Lemma is_line_bytes_of s :
  lacks LF s = true -> is_line (bytes_of (s +:+ String LF EmptyString)) = true.
Proof.
  intros Hs. unfold is_line. rewrite bytes_of_app.
  change (bytes_of (String LF EmptyString)) with ["010"%byte].
  by rewrite (cut_bytes_of s [] Hs).
Qed.

Lemma is_line_CRLF s :
  lacks LF s = true -> is_line (bytes_of (s +:+ CRLF)) = true.
Proof.
  intros Hs.
  replace (s +:+ CRLF) with ((s +:+ String CR EmptyString) +:+ String LF EmptyString)
    by apply append_assoc.
  apply is_line_bytes_of. by rewrite lacks_app, Hs.
Qed.

Lemma length_bytes_of_app_CRLF s :
  length (bytes_of (s +:+ CRLF)) = (length (bytes_of s) + 2)%nat.
Proof. by rewrite bytes_of_app, length_app. Qed.

(** ** The request line *)

Lemma word_byte_not_space c : word_byte c = true -> fmt.isSpace (code c) = false.
Proof. by intros [_ H%negb_true_iff]%andb_prop. Qed.

Lemma word_byte_ascii c : word_byte c = true -> code c < 0x80.
Proof. intros [H _]%andb_prop. apply Nat.ltb_lt in H. unfold code. lia. Qed.

Lemma not_space_not_LF c : fmt.isSpace (code c) = false -> Ascii.eqb c LF = false.
Proof.
  intros H. destruct (Ascii.eqb_spec c LF) as [->|]; [|done]. by vm_compute in H.
Qed.

Lemma not_space_not_newline c :
  fmt.isSpace (code c) = false -> (code c =? 0x0A) = false.
Proof.
  intros H. destruct (Z.eqb_spec (code c) 0x0A) as [E|]; [|done].
  rewrite E in H. by vm_compute in H.
Qed.

Lemma ascii_no_space_lacks_LF s : ascii_no_space s = true -> lacks LF s = true.
Proof.
  induction s as [|c s IH]; [done|]. simpl. rewrite lacks_cons.
  intros [Hc Hs]%andb_prop. apply word_byte_not_space in Hc.
  rewrite Ascii.eqb_sym, (not_space_not_LF _ Hc). by apply IH.
Qed.

Lemma not_space_not_trimmed c :
  fmt.isSpace (code c) = false ->
  strings.contains c (String CR (String LF " ")) = false /\
  strings.contains c (String LF (String CR " ")) = false.
Proof.
  intros H. simpl.
  destruct (Ascii.eqb_spec c CR) as [->|]; [by vm_compute in H|].
  destruct (Ascii.eqb_spec c LF) as [->|]; [by vm_compute in H|].
  destruct (Ascii.eqb_spec c " ") as [->|]; [by vm_compute in H|]. done.
Qed.

(** An ASCII byte is a rune of its own, which is written back as it is. *)
Lemma runes_cons c s :
  code c < 0x80 -> fmt.runes 0 (String c s) = code c :: fmt.runes 0 s.
Proof.
  intros H. cbn [fmt.runes]. unfold utf8.DecodeRuneInString.
  change (String.length (String c s) <? 1)%nat with false.
  change (utf8.byte_at (String c s) 0) with (code c). cbv zeta iota.
  by destruct (Z.ltb_spec (code c) 0x80); [|lia].
Qed.

Lemma AppendRune_ascii c :
  code c < 0x80 -> utf8.AppendRune (code c) = String c EmptyString.
Proof.
  intros H. unfold utf8.AppendRune.
  assert (0 <= code c) by (unfold code; lia).
  destruct (Z.leb_spec 0 (code c)); [|lia].
  destruct (Z.leb_spec (code c) 0x7F); [|lia]. cbn [andb].
  unfold utf8.char, code. by rewrite Nat2Z.id, ascii_nat_embedding.
Qed.

Lemma runes_codes w rest :
  ascii_no_space w = true -> fmt.runes 0 (w +:+ rest) = codes w ++ fmt.runes 0 rest.
Proof.
  induction w as [|c w IH]; [done|]. cbn [ascii_no_space codes app].
  intros [Hc Hw]%andb_prop. rewrite append_cons.
  by rewrite (runes_cons _ _ (word_byte_ascii _ Hc)), (IH Hw).
Qed.

Lemma SkipSpace_word w rest :
  word w = true -> fmt.SkipSpace (codes w ++ rest) = Some (codes w ++ rest).
Proof.
  destruct w as [|c w]; [done|]. cbn [word ascii_no_space]. intros [Hc _]%andb_prop.
  apply word_byte_not_space in Hc. cbn [codes app fmt.SkipSpace].
  by rewrite (not_space_not_newline _ Hc), Hc.
Qed.

Lemma token_word w rest :
  ascii_no_space w = true -> at_space rest = true ->
  fmt.token (codes w ++ rest) = (w, rest).
Proof.
  intros Hw Hrest. induction w as [|c w IH].
  - destruct rest as [|d rest]; [done|]. cbn [codes app fmt.token at_space] in *.
    by rewrite Hrest.
  - cbn [ascii_no_space] in Hw. apply andb_prop in Hw as [Hc Hw].
    cbn [codes app fmt.token].
    rewrite (word_byte_not_space _ Hc), (IH Hw).
    by rewrite (AppendRune_ascii _ (word_byte_ascii _ Hc)).
Qed.

Lemma scan_s_word w rest :
  word w = true -> at_space rest = true ->
  fmt.scan_s (codes w ++ rest) = Some (w, rest).
Proof.
  intros Hw Hrest. unfold fmt.scan_s. rewrite (SkipSpace_word _ _ Hw).
  cbn [mbind option_bind].
  destruct w as [|c w]; [done|]. rewrite token_word; [|done..].
  done.
Qed.

Lemma advance_space_word w rest :
  word w = true ->
  fmt.advance_space (code " " :: codes w ++ rest) = Some (codes w ++ rest).
Proof.
  destruct w as [|c w]; [done|]. cbn [word ascii_no_space]. intros [Hc _]%andb_prop.
  apply word_byte_not_space in Hc. unfold fmt.advance_space.
  change (fmt.isSpace (code " ")) with true.
  change (code " " =? 0x0A) with false. cbn [negb codes app fmt.skipBlank].
  by rewrite Hc.
Qed.

(** A rune takes a byte at least, so a string has no more runes than
    bytes, and the scan of a line within its limit sees all its runes. *)
Lemma length_runes s : forall pending,
  (length (fmt.runes pending s) <= String.length s)%nat.
Proof.
  induction s as [|c s IH]; intros pending; [done|]. cbn [fmt.runes String.length].
  destruct pending as [|k]; [|specialize (IH k); lia].
  destruct (utf8.DecodeRuneInString _) as [r size]. cbn [length].
  specialize (IH (size - 1)%nat). lia.
Qed.

Lemma upto_all s : forall limit,
  Z.of_nat (length s) <= limit -> fmt.upto limit s = s.
Proof.
  induction s as [|r s IH]; intros limit Hlen; [done|]. cbn [fmt.upto length] in *.
  destruct (Z.leb_spec limit 0); [lia|]. rewrite IH; [done|lia].
Qed.

Lemma length_bytes_of s : length (bytes_of s) = String.length s.
Proof.
  induction s as [|c s IH]; [done|]. rewrite bytes_of_cons. simpl. by rewrite IH.
Qed.

Lemma upto_runes s :
  scanned_whole (bytes_of s) = true ->
  fmt.upto fmt.hugeWid (fmt.runes 0 s) = fmt.runes 0 s.
Proof.
  unfold scanned_whole. rewrite length_bytes_of. intros H%Z.leb_le.
  apply upto_all. pose proof (length_runes s 0). lia.
Qed.

(** [Sscanf] gives back the three words of a request line. *)
Lemma Sscanf_request_line m p v :
  word m = true -> word p = true -> word v = true ->
  scanned_whole (request_line m p v) = true ->
  fmt.Sscanf (string_of (request_line m p v)) = Some (m, p, v).
Proof.
  intros Hm Hp Hv Hlen. unfold request_line in *. rewrite string_of_bytes_of.
  unfold fmt.Sscanf. rewrite (upto_runes _ Hlen).
  change (m +:+ " " +:+ p +:+ " " +:+ v +:+ CRLF)
    with (m +:+ String " " (p +:+ String " " (v +:+ CRLF))).
  assert (forall w, word w = true -> ascii_no_space w = true) as Hword
    by (by intros [|??]).
  rewrite (runes_codes m _ (Hword _ Hm)), (runes_cons " ") by done.
  rewrite (runes_codes p _ (Hword _ Hp)), (runes_cons " ") by done.
  rewrite (runes_codes v _ (Hword _ Hv)).
  rewrite (scan_s_word m (code " " :: _) Hm eq_refl). cbn [mbind option_bind].
  rewrite (advance_space_word p _ Hp). cbn [mbind option_bind].
  rewrite (scan_s_word p (code " " :: _) Hp eq_refl). cbn [mbind option_bind].
  rewrite (advance_space_word v _ Hv). cbn [mbind option_bind].
  by rewrite (scan_s_word v (fmt.runes 0 CRLF) Hv eq_refl).
Qed.

(** Beyond ASCII the words are not given back as they are: an invalid
    byte is written back as U+FFFD, a valid sequence as it is, and a space
    rune such as U+00A0 ends a word. *)
Example Sscanf_invalid_byte :
  fmt.Sscanf ("GET /" +:+ String "255"%char (" HTTP/1.1" +:+ CRLF))
  = Some ("GET",
          "/" +:+ String "239"%char (String "191"%char (String "189"%char EmptyString)),
          "HTTP/1.1").
Proof. reflexivity. Qed.

Example Sscanf_two_byte_rune :
  fmt.Sscanf ("GET /" +:+ String "195"%char (String "169"%char (" HTTP/1.1" +:+ CRLF)))
  = Some ("GET", "/" +:+ String "195"%char (String "169"%char EmptyString), "HTTP/1.1").
Proof. reflexivity. Qed.

Example Sscanf_no_break_space :
  fmt.Sscanf ("GET /a" +:+ String "194"%char (String "160"%char ("b HTTP/1.1" +:+ CRLF)))
  = None.
Proof. reflexivity. Qed.

(** Trimming takes nothing off a string without spaces. *)
Lemma Trim_ascii_no_space s :
  ascii_no_space s = true -> strings.Trim s (String CR (String LF " ")) = s.
Proof.
  intros Hs. unfold strings.Trim.
  assert (strings.TrimLeft s (String CR (String LF " ")) = s) as ->.
  { destruct s as [|c s]; [done|]. simpl in Hs. apply andb_prop in Hs as [Hc _].
    apply word_byte_not_space, not_space_not_trimmed in Hc as [Hc _].
    cbn [strings.TrimLeft]. by rewrite Hc. }
  induction s as [|c s IH]; [done|]. simpl in Hs. apply andb_prop in Hs as [Hc Hs].
  apply word_byte_not_space, not_space_not_trimmed in Hc as [Hc _].
  cbn [strings.TrimRight]. rewrite (IH Hs), Hc. by destruct s.
Qed.

Lemma is_line_request_line m p v :
  word m = true -> word p = true -> word v = true ->
  is_line (request_line m p v) = true.
Proof.
  intros Hm Hp Hv. unfold request_line.
  replace (m +:+ " " +:+ p +:+ " " +:+ v +:+ CRLF)
    with ((m +:+ " " +:+ p +:+ " " +:+ v) +:+ CRLF)
    by (by rewrite !append_assoc).
  apply is_line_CRLF. rewrite !lacks_app.
  rewrite (ascii_no_space_lacks_LF m), (ascii_no_space_lacks_LF p), (ascii_no_space_lacks_LF v);
    [done|by destruct v|by destruct p|by destruct m].
Qed.

(** ** The handler on a well-formed request *)

(** The handler as the composition of its parts: when the stream starts
    with a request line of three words, header lines, and a two-byte line,
    the run is the one of the router on the request that the header parser
    makes of the lines, however the connection chunks the bytes. *)
Lemma handleConn_parsed clock opts conn fs m p v hs t rest :
  word m = true -> word p = true -> word v = true ->
  scanned_whole (request_line m p v) = true ->
  Forall (fun h => is_line h = true /\ length h ≠ 2%nat) hs ->
  is_line t = true -> length t = 2%nat ->
  concat (incoming conn) = request_line m p v ++ concat hs ++ t ++ rest ->
  match parse_all hs (request_of m p v) with
  | Ok req =>
      exists b, bufio.remaining b = rest /\
                handleConn clock opts conn fs = Some (route clock opts req b fs)
  | Panic pn =>
      exists b, handleConn clock opts conn fs = Some (mkRun [] fs b (Panicked pn))
  end.
Proof.
  intros Hm Hp Hv Hwhole Hhs Ht Hlen Hin.
  destruct (ReadBytes_line (bufio.NewReader conn) (request_line m p v)
              (concat hs ++ t ++ rest)) as (b1 & Hread & Hb1 & _);
    [by apply is_line_request_line|exact Hin|].
  pose proof (parseHeaders_lines_fuel hs (parseHeaders_fuel b1) b1
                (request_of m p v) t rest Hhs Ht Hlen Hb1) as Hloop.
  unfold handleConn. rewrite Hread. cbn [mbind option_bind].
  rewrite (Sscanf_request_line m p v Hm Hp Hv Hwhole).
  change (set_pathParts _ _) with (request_of m p v).
  destruct (parse_all hs (request_of m p v)) as [req|pn].
  - destruct Hloop as (b & -> & Hb); [unfold parseHeaders_fuel; lia|].
    by exists b.
  - destruct Hloop as (b & ->); [unfold parseHeaders_fuel; lia|].
    by exists b.
Qed.

(** ** What the header lines cannot change *)

Lemma parseHeader_frame line req req' :
  parseHeader line req = Ok req' ->
  method req' = method req /\ httpVersion req' = httpVersion req /\
  path req' = path req /\ pathParts req' = pathParts req.
Proof.
  unfold parseHeader.
  repeat match goal with
         | |- context [match ?x with _ => _ end] => destruct x
         end; by intros [= <-].
Qed.

Lemma parseHeaders_frame : forall fuel b req req' b',
  parseHeaders fuel b req = Some (Break req' b') ->
  method req' = method req /\ httpVersion req' = httpVersion req /\
  path req' = path req /\ pathParts req' = pathParts req.
Proof.
  induction fuel as [|fuel IH]; intros b req req' b'; [done|].
  rewrite parseHeaders_S.
  destruct (bufio.ReadBytes b "010") as [[[out e] b1]|]; [|done].
  cbn [mbind option_bind]. destruct e as [e|]; [done|].
  destruct (length out =? 2)%nat; [by intros [= <- <-]|].
  destruct (parseHeader out req) as [req1|pn] eqn:E; [|done].
  intros (-> & -> & -> & ->)%IH. by apply parseHeader_frame in E.
Qed.

Lemma cut_first (d : byte) l rest :
  d ∉ l -> bufio.cut d (l ++ d :: rest) = Some (l ++ [d], rest).
Proof.
  induction l as [|x l IH]; intros Hl; cbn [app bufio.cut].
  - by rewrite (proj2 (byte_eqb_eq d d) eq_refl).
  - apply not_elem_of_cons in Hl as [Hx Hl].
    destruct (Byte.eqb x d) eqn:E; [by apply byte_eqb_eq in E|].
    by rewrite (IH Hl).
Qed.

(** The loop ends with [Break] only after it has read whole lines that
    are not two bytes long, which it has parsed, and then a two-byte
    line. *)
Lemma parseHeaders_Break : forall fuel b req req' b',
  parseHeaders fuel b req = Some (Break req' b') ->
  exists hs t,
    bufio.remaining b = concat hs ++ t ++ bufio.remaining b' /\
    Forall (fun h => is_line h = true /\ length h ≠ 2%nat) hs /\
    is_line t = true /\ length t = 2%nat /\ parse_all hs req = Ok req'.
Proof.
  induction fuel as [|fuel IH]; intros b req req' b'; [done|].
  rewrite parseHeaders_S.
  destruct (ReadBytes_spec b "010") as ([[out e] b1] & -> & _ & He).
  cbn [mbind option_bind]. destruct e as [e|]; [done|].
  destruct He as (l & -> & Hl & Hrem). cbn [app] in *.
  assert (is_line (l ++ ["010"%byte]) = true) as Hline
    by (unfold is_line; by rewrite (cut_first _ l [] Hl)).
  destruct (Nat.eqb_spec (length (l ++ ["010"%byte])) 2) as [Hlen|Hlen].
  - intros [= <- <-]. exists [], (l ++ ["010"%byte]).
    split_and!; [|done..]. cbn [concat app]. by rewrite <- app_assoc.
  - destruct (parseHeader _ req) as [req1|pn] eqn:Hparse; [|done].
    intros (hs & t & Hb1 & Hhs & Ht & Hlent & Hall)%IH.
    exists ((l ++ ["010"%byte]) :: hs), t. split_and!; [| |done|done|].
    + rewrite Hrem, Hb1. cbn [concat]. by rewrite <- !app_assoc.
    + by apply Forall_cons.
    + cbn [parse_all]. by rewrite Hparse.
Qed.

(** The loop does not end with [Break] when what is left of the stream is
    whole lines that are not two bytes long and then bytes without a line
    feed. *)
Lemma parseHeaders_truncated hs : forall fuel b req tail req' b',
  Forall (fun h => is_line h = true) hs ->
  Forall (fun h => length h ≠ 2%nat) hs ->
  "010"%byte ∉ tail ->
  bufio.remaining b = concat hs ++ tail ->
  parseHeaders fuel b req ≠ Some (Break req' b').
Proof.
  induction hs as [|h hs IH]; intros fuel b req tail req' b' Hline Hlen Htail Hrem;
    (destruct fuel as [|fuel]; [done|]); rewrite parseHeaders_S.
  - cbn [concat app] in Hrem. rewrite <- Hrem in Htail.
    by destruct (ReadBytes_no_line b Htail) as (b1 & ->).
  - apply Forall_cons in Hline as [Hh Hline]. apply Forall_cons in Hlen as [Hne Hlen].
    cbn [concat] in Hrem. rewrite <- app_assoc in Hrem.
    destruct (ReadBytes_line b h _ Hh Hrem) as (b1 & -> & Hb1 & _).
    cbn [mbind option_bind]. apply Nat.eqb_neq in Hne as ->.
    destruct (parseHeader h req) as [req1|pn]; [|done].
    by apply (IH fuel b1 req1 tail).
Qed.

(** ** The router and the files *)

Lemma WriteFile_fsys name d perm fs :
  (os.WriteFile name d perm fs).1 = fs \/
  exists f, (os.WriteFile name d perm fs).1 = os.set_file name f fs.
Proof.
  unfold os.WriteFile. destruct (os.files fs !! name) as [f|].
  - destruct (os.may_write fs f); eauto.
  - destruct (os.creatable fs name); eauto.
Qed.

(** The router leaves the file system as it is, or sets the one file that
    a POST to the files route names. *)
Lemma route_fsys clock opts req b fs :
  fsys (route clock opts req b fs) = fs \/
  (method req = "POST" /\ pathParts req !! 1%nat = Some "files" /\
   exists name f, pathParts req !! 2%nat = Some name /\
                  fsys (route clock opts req b fs)
                  = os.set_file (directory opts +:+ name) f fs).
Proof.
  unfold route, slice_from.
  destruct (length (pathParts req) <? 2)%nat; [by left|].
  destruct (String.eqb (method req) methodPost) eqn:Hm.
  - apply String.eqb_eq in Hm.
    destruct (index (pathParts req) 1) as [key|pn] eqn:Hkey; [|by left].
    apply index_Ok in Hkey.
    destruct (String.eqb key "files") eqn:Hfiles; [|by left].
    apply String.eqb_eq in Hfiles as ->.
    destruct (make_bytes (contentLength req)) as [buf|pn]; [|by left].
    destruct (bufio.Read b (length buf)) as [[got e] b1].
    destruct e as [e|]; [by left|].
    destruct (index (pathParts req) 2) as [name|pn] eqn:Hname; [|by left].
    apply index_Ok in Hname.
    pose proof (WriteFile_fsys (directory opts +:+ name) (copy_into buf got)
                  os.ModeAppend fs) as Hw.
    destruct (os.WriteFile _ _ _ _) as [fs' [e|]]; cbn [fst fsys] in *.
    all: destruct Hw as [->|(f & ->)]; [by left|right; eauto 10].
  - repeat route_step; by left.
Qed.

(** X2: how many responses a run of the router writes: none when it
    panics, one when it returns an error, and when it returns without one,
    two for a GET request (with a path of two segments or more) and one
    for any other request. *)
Theorem route_written clock opts req b fs :
  match outcome_of (route clock opts req b fs) with
  | Panicked _ => written (route clock opts req b fs) = []
  | Return (Some _) => length (written (route clock opts req b fs)) = 1%nat
  | Return None =>
      length (written (route clock opts req b fs))
      = if String.eqb (method req) methodGet && (2 <=? length (pathParts req))%nat
        then 2%nat else 1%nat
  end.
Proof.
  unfold route, slice_from.
  destruct (Nat.ltb_spec (length (pathParts req)) 2) as [Hlt|Hge].
  - destruct (Nat.leb_spec 2 (length (pathParts req))); [lia|].
    by rewrite andb_false_r.
  - destruct (Nat.leb_spec 2 (length (pathParts req))); [|lia].
    rewrite andb_true_r.
    destruct (String.eqb (method req) methodPost) eqn:Hpost.
    + apply String.eqb_eq in Hpost. rewrite Hpost.
      change (String.eqb methodPost methodGet) with false.
      repeat route_step; done.
    + destruct (String.eqb (method req) methodGet) eqn:Hget; cbv iota;
        [|done].
      repeat route_step; done.
Qed.

(** X1: the router panics in exactly three cases, all on the files
    routes: a POST whose declared length no slice can have (before
    anything is read); a POST without a third path segment, once its body
    was read without an error; a GET without a third path segment. In
    every other case it returns. *)
Theorem route_panics_iff clock opts req b fs pn :
  outcome_of (route clock opts req b fs) = Panicked pn <->
  pathParts req !! 1%nat = Some "files" /\
  ((method req = "POST" /\
    (contentLength req < 0 \/ maxAlloc < contentLength req) /\
    pn = MakeSliceLenOutOfRange) \/
   (method req = "POST" /\ 0 <= contentLength req <= maxAlloc /\
    (bufio.Read b (Z.to_nat (contentLength req))).1.2 = None /\
    length (pathParts req) = 2%nat /\ pn = IndexOutOfRange 2 2) \/
   (method req = "GET" /\
    length (pathParts req) = 2%nat /\ pn = IndexOutOfRange 2 2)).
Proof.
  split.
  - unfold route, slice_from, make_bytes.
    destruct (Nat.ltb_spec (length (pathParts req)) 2) as [|Hlen]; [done|].
    destruct (String.eqb (method req) methodPost) eqn:Hpost.
    + apply String.eqb_eq in Hpost.
      destruct (index (pathParts req) 1) as [key|?] eqn:Hkey;
        [apply index_Ok in Hkey|apply index_Panic in Hkey; lia].
      destruct (String.eqb key "files") eqn:Hfiles; [|done].
      apply String.eqb_eq in Hfiles as ->.
      destruct (Z.ltb_spec (contentLength req) 0) as [?|?];
        [intros [= <-]; split; [done|]; left; auto|].
      destruct (Z.ltb_spec maxAlloc (contentLength req)) as [?|?];
        [intros [= <-]; split; [done|]; left; auto|].
      cbn [orb]. rewrite length_replicate.
      destruct (bufio.Read b _) as [[got e] b1] eqn:Hread.
      destruct e as [e|]; [done|].
      destruct (index (pathParts req) 2) as [name|?] eqn:Hname.
      * by destruct (os.WriteFile _ _ _ _) as [fs' [e|]].
      * apply index_Panic in Hname as [Hle ->]. intros [= <-].
        split; [done|]. right; left.
        assert (length (pathParts req) = 2%nat) as -> by lia.
        split_and!; auto; lia.
    + destruct (String.eqb (method req) methodGet) eqn:Hget; [|done].
      apply String.eqb_eq in Hget.
      destruct (index (pathParts req) 1) as [key|?] eqn:Hkey;
        [apply index_Ok in Hkey|apply index_Panic in Hkey; lia].
      destruct (String.eqb key ""); [done|].
      destruct (String.eqb key "echo").
      { destruct (Nat.leb_spec 2 (length (pathParts req))); [done|lia]. }
      destruct (String.eqb key "user-agent"); [done|].
      destruct (String.eqb key "files") eqn:Hfiles; [|done].
      apply String.eqb_eq in Hfiles as ->.
      destruct (index (pathParts req) 2) as [name|?] eqn:Hname.
      * by destruct (os.ReadFile _ _) as [data [e|]].
      * apply index_Panic in Hname as [Hle ->]. intros [= <-].
        split; [done|]. right; right.
        assert (length (pathParts req) = 2%nat) as -> by lia. done.
  - intros [Hkey Hcases]. pose proof (lookup_lt_Some _ _ _ Hkey) as Hlen.
    unfold route, make_bytes. rewrite (index_Some _ _ _ Hkey).
    destruct (Nat.ltb_spec (length (pathParts req)) 2) as [|_]; [lia|].
    change (String.eqb "files" "files") with true.
    change (String.eqb "files" "") with false.
    change (String.eqb "files" "echo") with false.
    change (String.eqb "files" "user-agent") with false.
    destruct Hcases as [(-> & Hcl & ->)|[(-> & Hcl & Hread & Hlen2 & ->)|(-> & Hlen2 & ->)]].
    + change (String.eqb "POST" methodPost) with true. cbv iota.
      destruct Hcl.
      * destruct (Z.ltb_spec (contentLength req) 0); [done|lia].
      * destruct (Z.ltb_spec maxAlloc (contentLength req)); [|lia].
        by rewrite orb_true_r.
    + change (String.eqb "POST" methodPost) with true. cbv iota.
      destruct (Z.ltb_spec (contentLength req) 0); [lia|].
      destruct (Z.ltb_spec maxAlloc (contentLength req)); [lia|].
      cbn [orb]. rewrite length_replicate.
      destruct (bufio.Read b _) as [[got e] b1]. cbn [fst snd] in Hread. subst e.
      unfold index. rewrite (lookup_ge_None_2 (pathParts req) 2) by lia.
      by rewrite Hlen2.
    + change (String.eqb "GET" methodPost) with false.
      change (String.eqb "GET" methodGet) with true. cbv iota.
      unfold index. rewrite (lookup_ge_None_2 (pathParts req) 2) by lia.
      by rewrite Hlen2.
Qed.

(** X3: the router touches one file at most. A request that is no POST,
    or whose second path segment is not [files], or that has no third
    segment, leaves the file system as it is; and after any request, every
    path of the file system, whatever its form, holds what it held before,
    but the one path made of the directory and the third segment. *)
Theorem route_touches_one_file clock opts req b fs :
  let fs' := fsys (route clock opts req b fs) in
  (method req ≠ "POST" \/ pathParts req !! 1%nat ≠ Some "files"
   \/ pathParts req !! 2%nat = None -> fs' = fs) /\
  forall path,
    (forall name, pathParts req !! 2%nat = Some name ->
                  path ≠ directory opts +:+ name) ->
    os.files fs' !! path = os.files fs !! path.
Proof.
  intros fs'. unfold fs'.
  destruct (route_fsys clock opts req b fs)
    as [->|(Hm & Hkey & name & f & Hname & ->)]; [done|].
  split.
  - intros [H|[H|H]]; [done|done|]. by rewrite Hname in H.
  - intros path Hpath. cbn [os.set_file os.files].
    apply lookup_insert_ne. intros E. by apply (Hpath name Hname).
Qed.

Lemma Split_pieces s sep piece :
  piece ∈ strings.Split s sep -> lacks sep piece = true.
Proof.
  revert piece. induction s as [|c s IH]; intros piece; simpl.
  - by intros ->%list_elem_of_singleton.
  - destruct (Ascii.eqb c sep) eqn:Hc.
    + intros [->|Hin]%elem_of_cons; [done|by apply IH].
    + destruct (strings.Split s sep) as [|p0 ps] eqn:Hsplit.
      * by intros ->%list_elem_of_singleton;
          rewrite lacks_cons, Ascii.eqb_sym, Hc.
      * intros [->|Hin]%elem_of_cons.
        -- rewrite lacks_cons, Ascii.eqb_sym, Hc. apply IH. by left.
        -- apply IH. by right.
Qed.

(** X4: whatever the connection delivers, a run of the handler ends,
    and it leaves the file system as it is or sets one file, whose path is
    the configured directory string followed by a name without a slash: no
    request path makes the handler write below or above that. *)
Theorem handleConn_sets_one_named_file clock opts conn fs :
  exists r, handleConn clock opts conn fs = Some r /\
            (fsys r = fs \/
             exists name f, lacks "/" name = true /\
                            fsys r = os.set_file (directory opts +:+ name) f fs).
Proof.
  unfold handleConn.
  destruct (ReadBytes_spec (bufio.NewReader conn) "010") as ([[out e] b1] & -> & _).
  cbn [mbind option_bind].
  assert (forall m p v,
    exists r,
      (h ← parseHeaders (parseHeaders_fuel b1) b1 (request_of m p v);
       match h with
       | Break req reqReader => Some (route clock opts req reqReader fs)
       | HeaderError e reqReader =>
           Some (mkRun [] fs reqReader
                   (Return (Some (Errorf "error reading header line bytes" e))))
       | HeaderPanic p reqReader => Some (mkRun [] fs reqReader (Panicked p))
       end) = Some r /\
      (fsys r = fs \/
       exists name f, lacks "/" name = true /\
                      fsys r = os.set_file (directory opts +:+ name) f fs))
    as Hloop.
  { intros m p v.
    destruct (parseHeaders_total (parseHeaders_fuel b1) b1 (request_of m p v))
      as [h Hh]; [unfold parseHeaders_fuel; lia|].
    rewrite Hh. cbn [mbind option_bind].
    destruct h as [req b2|e' b2|pn b2]; [|by eauto..].
    eexists; split; [done|].
    destruct (route_fsys clock opts req b2 fs)
      as [->|(_ & _ & name & f & Hname & ->)]; [by left|].
    right. exists name, f. split; [|done].
    apply parseHeaders_frame in Hh as (_ & _ & _ & Hparts).
    rewrite Hparts in Hname. apply list_elem_of_lookup_2 in Hname.
    by apply Split_pieces in Hname. }
  destruct e as [e|].
  - destruct e; try by eauto.
    destruct (fmt.Sscanf (string_of out)) as [[[m p] v]|]; [|by eauto].
    apply (Hloop m p v).
  - destruct (fmt.Sscanf (string_of out)) as [[[m p] v]|]; [|by eauto].
    apply (Hloop m p v).
Qed.

(** X5: header lines set the host, the user agent and the content
    length, and nothing else: whatever lines are parsed, the method, the
    version, the path and its segments stay those of the request line. *)
Theorem headers_keep_the_request_line hs req req' :
  parse_all hs req = Ok req' ->
  method req' = method req /\ httpVersion req' = httpVersion req /\
  path req' = path req /\ pathParts req' = pathParts req.
Proof.
  revert req. induction hs as [|h hs IH]; intros req; simpl.
  - by intros [= <-].
  - destruct (parseHeader h req) as [req1|pn] eqn:E; [|done].
    intros (-> & -> & -> & ->)%IH. by apply parseHeader_frame in E.
Qed.

Lemma headers_keep_the_request_line_witness :
  let hs := [header_line "Host: evil"; header_line "GET: /files/x";
             header_line "Content-Length: 3"] in
  let req := request_of "GET" "/echo/a" "HTTP/1.1" in
  parse_all hs req = Ok (set_contentLength 3 (set_host "evil" req)) /\
  method (set_contentLength 3 (set_host "evil" req)) = "GET" /\
  pathParts (set_contentLength 3 (set_host "evil" req)) = [""; "echo"; "a"].
Proof.
  intros hs req.
  assert (parse_all hs req = Ok (set_contentLength 3 (set_host "evil" req))) as H
    by reflexivity.
  split; [exact H|].
  destruct (headers_keep_the_request_line hs req _ H) as (Hm & _ & _ & Hp).
  split; [exact Hm|exact Hp].
Defined.

(** X6: the header parser panics exactly on a line that has no colon
    and is, once trimmed, one of the three keys it knows; on every other
    line it returns a request. *)
Theorem parseHeader_panics_iff line req :
  (exists pn, parseHeader line req = Panic pn) <->
  lacks ":" (string_of line) = true /\
  let key := strings.Trim (string_of line) (String LF (String CR " ")) in
  key = "Host" \/ key = "User-Agent" \/ key = "Content-Length".
Proof.
  rewrite lacks_split_first. cbv zeta.
  destruct (split_first (string_of line) ":") as [[k v]|] eqn:E.
  - rewrite (parseHeader_with_colon _ _ _ _ E). cbv zeta. split.
    + intros [pn Hpn]. by repeat destruct (String.eqb _ _).
    + by intros [? _].
  - rewrite (parseHeader_without_colon _ _ E). cbv zeta.
    set (key := strings.Trim (string_of line) (String LF (String CR " "))).
    destruct (String.eqb_spec key "Host") as [Hhost|Hhost];
      destruct (String.eqb_spec key "User-Agent") as [Hua|Hua];
      destruct (String.eqb_spec key "Content-Length") as [Hcl|Hcl];
      cbn [orb]; (split; [intros [pn Hpn]|intros [_ Hkey]]);
      try discriminate Hpn; try (by eauto); try (by auto).
    by destruct Hkey as [?|[?|?]].
Qed.

(** X7: the handler answers only a request whose headers are complete.
    When it has written anything, the stream was: a whole line (the
    request line), then whole lines none of which is two bytes long (the
    headers), then a line of two bytes (the one that ends the headers),
    then the rest. And when the stream is whole lines, none after the
    first of two bytes, followed by bytes without a line feed (the peer
    closed or failed before the headers ended), nothing is written. *)
Theorem handleConn_answers_after_the_headers clock opts conn fs r :
  handleConn clock opts conn fs = Some r ->
  (written r ≠ [] ->
   exists line hs t rest,
     concat (incoming conn) = line ++ concat hs ++ t ++ rest /\
     is_line line = true /\
     Forall (fun h => is_line h = true /\ length h ≠ 2%nat) hs /\
     is_line t = true /\ length t = 2%nat) /\
  (forall ls tail,
     concat (incoming conn) = concat ls ++ tail ->
     Forall (fun l => is_line l = true) ls ->
     Forall (fun h => length h ≠ 2%nat) (drop 1 ls) ->
     "010"%byte ∉ tail ->
     written r = []).
Proof.
  unfold handleConn.
  destruct (ReadBytes_spec (bufio.NewReader conn) "010")
    as ([[out e] b1] & -> & _ & He).
  cbn [mbind option_bind].
  assert (forall w : list (list byte), w = [] ->
    (w ≠ [] ->
     exists line hs t rest,
       concat (incoming conn) = line ++ concat hs ++ t ++ rest /\
       is_line line = true /\
       Forall (fun h => is_line h = true /\ length h ≠ 2%nat) hs /\
       is_line t = true /\ length t = 2%nat) /\
    (forall ls tail,
       concat (incoming conn) = concat ls ++ tail ->
       Forall (fun l => is_line l = true) ls ->
       Forall (fun h => length h ≠ 2%nat) (drop 1 ls) ->
       "010"%byte ∉ tail ->
       w = [])) as Hquiet
    by (intros w ->; split; [by intros H|done]).
  assert (e = None \/ exists e', e = Some e') as [->|[e' ->]]
    by (destruct e; eauto).
  - destruct He as (l & -> & Hl & Hrem). cbn [app] in Hrem.
    destruct (fmt.Sscanf _) as [[[m p] v]|]; [|by intros [= <-]; apply Hquiet].
    destruct (parseHeaders _ _ _) as [h|] eqn:Hh; [|done].
    cbn [mbind option_bind].
    destruct h as [req b2|e b2|pn b2]; [|by intros [= <-]; apply Hquiet..].
    intros _. split.
    + intros _.
      apply parseHeaders_Break in Hh as (hs & t & Hb1 & Hhs & Ht & Hlen & _).
      exists (l ++ ["010"%byte]), hs, t, (bufio.remaining b2).
      split_and!; [|  |done..].
      * change (concat (incoming conn)) with (bufio.remaining (bufio.NewReader conn)).
        rewrite Hrem, Hb1. by rewrite <- !app_assoc.
      * unfold is_line. by rewrite (cut_first _ l [] Hl).
    + intros ls tail Hcat Hls Hhs Htail. exfalso.
      change (concat (incoming conn)) with (bufio.remaining (bufio.NewReader conn))
        in Hcat.
      rewrite Hrem in Hcat. destruct ls as [|line hs].
      * apply Htail. cbn [concat app] in Hcat. rewrite <- Hcat.
        rewrite elem_of_app. right. by left.
      * apply Forall_cons in Hls as [Hline Hls].
        apply is_line_spec in Hline as (pre & -> & Hpre).
        cbn [concat drop] in Hcat, Hhs. rewrite <- !app_assoc in Hcat.
        apply (first_delim_unique _ l _ pre) in Hcat as [_ Hb1]; [|done..].
        exact (parseHeaders_truncated hs _ _ _ tail _ _ Hls Hhs Htail Hb1 Hh).
  - destruct He as (_ & _ & Hno & Hnil).
    destruct e'; try by intros [= <-]; apply Hquiet.
    destruct (fmt.Sscanf _) as [[[m p] v]|]; [|by intros [= <-]; apply Hquiet].
    destruct (parseHeaders _ _ _) as [h|] eqn:Hh; [|done].
    cbn [mbind option_bind].
    destruct h as [req b2|e b2|pn b2]; [|by intros [= <-]; apply Hquiet..].
    exfalso.
    exact (parseHeaders_truncated [] _ _ _ [] _ _ (Forall_nil_2 _) (Forall_nil_2 _)
             (not_elem_of_nil _) Hnil Hh).
Qed.

Lemma handleConn_answers_after_the_headers_witness :
  let conn := sends ["GET / HT"; "TP/1.1" +:+ CRLF +:+ "Host: h" +:+ CRLF; CRLF +:+ "x"] in
  let cut := sends ["GET / HTTP/1.1" +:+ CRLF +:+ "Host: h" +:+ CRLF +:+ "Accept"] in
  (exists r, handleConn the_clock the_opts conn (empty_fs false) = Some r /\
             written r ≠ [] /\
             exists line hs t rest,
               concat (incoming conn) = line ++ concat hs ++ t ++ rest /\
               is_line line = true /\
               Forall (fun h => is_line h = true /\ length h ≠ 2%nat) hs /\
               is_line t = true /\ length t = 2%nat) /\
  (exists r, handleConn the_clock the_opts cut (empty_fs false) = Some r /\
             written r = []).
Proof.
  intros conn cut. split.
  - destruct (handleConn the_clock the_opts conn (empty_fs false)) as [r|] eqn:E;
      [|discriminate E].
    assert (written r ≠ []) as Hw
      by (injection E as <-; discriminate).
    exists r. split; [reflexivity|]. split; [exact Hw|].
    exact (proj1 (handleConn_answers_after_the_headers
                    the_clock the_opts conn (empty_fs false) r E) Hw).
  - destruct (handleConn the_clock the_opts cut (empty_fs false)) as [r|] eqn:E;
      [|discriminate E].
    exists r. split; [reflexivity|].
    apply (proj2 (handleConn_answers_after_the_headers
                    the_clock the_opts cut (empty_fs false) r E)
             [request_line "GET" "/" "HTTP/1.1"; header_line "Host: h"]
             (bytes_of "Accept")).
    + reflexivity.
    + repeat constructor.
    + repeat constructor. discriminate.
    + intros Hin. repeat (apply elem_of_cons in Hin as [Hin|Hin]; [discriminate Hin|]).
      by apply elem_of_nil in Hin.
Defined.

(** ** Requests, end to end *)

Lemma header_line_passed_on h :
  header_text h = true ->
  is_line (header_line h) = true /\ length (header_line h) ≠ 2%nat.
Proof.
  intros [Hne Hlf]%andb_prop. unfold header_line. split; [by apply is_line_CRLF|].
  rewrite length_bytes_of_app_CRLF. destruct h as [|c h]; [done|].
  rewrite bytes_of_cons. simpl. lia.
Qed.

Lemma header_lines_passed_on hs :
  forallb header_text hs = true ->
  Forall (fun h => is_line h = true /\ length h ≠ 2%nat) (header_line <$> hs).
Proof.
  induction hs as [|h hs IH]; simpl; [by constructor|].
  intros [Hh Hhs]%andb_prop. constructor; [by apply header_line_passed_on|by apply IH].
Qed.

(** X8: the handler is the router after the header parser. For a
    stream that is a request line of three words (of ASCII bytes, none a
    space; the line within the 2^30 runes that a scan reads), header
    lines, the blank line and a body, in whatever chunks it comes: if the
    header parser panics on one of the lines, so does the
    handler, with nothing written; and else the run is the one of the
    router on the request the header lines make, with the body as the
    bytes still to read. *)
Theorem handleConn_routes_the_parsed_request clock opts conn fs m p v hs body :
  word m = true -> word p = true -> word v = true ->
  scanned_whole (request_line m p v) = true ->
  forallb header_text hs = true ->
  concat (incoming conn)
  = request_line m p v ++ concat (header_line <$> hs) ++ bytes_of CRLF ++ body ->
  match parse_all (header_line <$> hs) (request_of m p v) with
  | Ok req =>
      exists b, bufio.remaining b = body /\
                handleConn clock opts conn fs = Some (route clock opts req b fs)
  | Panic pn =>
      exists b, handleConn clock opts conn fs = Some (mkRun [] fs b (Panicked pn))
  end.
Proof.
  intros Hm Hp Hv Hwhole Hhs Hin.
  apply (handleConn_parsed clock opts conn fs m p v (header_line <$> hs)
           (bytes_of CRLF) body); try done.
  by apply header_lines_passed_on.
Qed.

Lemma handleConn_routes_the_parsed_request_witness :
  let conn := sends ["POST /fil"; "es/a HTTP/1.1" +:+ CRLF +:+ "Content-";
                     "Length: 2" +:+ CRLF +:+ CRLF +:+ "hi"] in
  let hs := ["Content-Length: 2"] in
  word "POST" = true /\ word "/files/a" = true /\ word "HTTP/1.1" = true /\
  scanned_whole (request_line "POST" "/files/a" "HTTP/1.1") = true /\
  forallb header_text hs = true /\
  concat (incoming conn)
  = request_line "POST" "/files/a" "HTTP/1.1" ++ concat (header_line <$> hs)
    ++ bytes_of CRLF ++ bytes_of "hi" /\
  exists b, bufio.remaining b = bytes_of "hi" /\
            handleConn the_clock the_opts conn (empty_fs true)
            = Some (route the_clock the_opts
                      (set_contentLength 2 (request_of "POST" "/files/a" "HTTP/1.1"))
                      b (empty_fs true)).
Proof.
  intros conn hs. split_and!; [reflexivity..|].
  exact (handleConn_routes_the_parsed_request the_clock the_opts conn (empty_fs true)
           "POST" "/files/a" "HTTP/1.1" hs (bytes_of "hi")
           eq_refl eq_refl eq_refl eq_refl eq_refl eq_refl).
Defined.

Lemma Join_cons_piece c piece pieces sep :
  strings.Join (String c piece :: pieces) sep
  = String c (strings.Join (piece :: pieces) sep).
Proof. by destruct pieces. Qed.

(** Joining the pieces of a split gives the string back. *)
Lemma Join_Split s sep :
  strings.Join (strings.Split s sep) (String sep EmptyString) = s.
Proof.
  induction s as [|c s IH]; [done|]. cbn [strings.Split].
  destruct (Ascii.eqb_spec c sep) as [->|Hc].
  - destruct (Split_nonempty s sep) as (piece & pieces & E). rewrite E in *.
    change (strings.Join ("" :: piece :: pieces) (String sep ""))
      with (String sep (strings.Join (piece :: pieces) (String sep ""))).
    by rewrite IH.
  - destruct (Split_nonempty s sep) as (piece & pieces & E). rewrite E in *.
    by rewrite Join_cons_piece, IH.
Qed.

Lemma ascii_no_space_app a b : ascii_no_space (a +:+ b) = ascii_no_space a && ascii_no_space b.
Proof.
  induction a as [|c a IH]; [done|]. rewrite append_cons. simpl.
  by rewrite IH, andb_assoc.
Qed.

(** Lines with a colon never make the header parser panic. *)
Lemma parse_all_with_colons hs : forall req,
  forallb (fun h => negb (lacks ":" h)) hs = true ->
  exists req', parse_all (header_line <$> hs) req = Ok req'.
Proof.
  induction hs as [|h hs IH]; intros req; simpl; [by eauto|].
  intros [Hh Hhs]%andb_prop.
  destruct (split_first (string_of (header_line h)) ":") as [[k v]|] eqn:E.
  - rewrite (parseHeader_with_colon _ _ _ _ E). cbv zeta.
    repeat destruct (String.eqb _ _); by apply IH.
  - apply lacks_split_first in E. unfold header_line in E.
    rewrite string_of_bytes_of, lacks_app in E.
    apply andb_prop in E as [E _]. by rewrite E in Hh.
Qed.

(** X9: the echo route, end to end. A GET request for [/echo/] followed
    by any text of ASCII bytes without spaces, with a version that is a
    word of such bytes (the request line within the 2^30 runes that a scan
    reads) and header lines that each have a colon,
    is answered with that text as the body, unchanged, slashes included,
    in a 200 response of type text/plain (and then the 405 response that
    follows every GET), whatever the chunks and whatever follows the blank
    line. *)
Theorem GET_echo_end_to_end clock opts conn fs text v hs body :
  ascii_no_space text = true -> word v = true ->
  scanned_whole (request_line "GET" ("/echo/" +:+ text) v) = true ->
  forallb header_text hs = true ->
  forallb (fun h => negb (lacks ":" h)) hs = true ->
  concat (incoming conn)
  = request_line "GET" ("/echo/" +:+ text) v ++ concat (header_line <$> hs)
    ++ bytes_of CRLF ++ body ->
  written <$> handleConn clock opts conn fs
  = Some [buildResponse (clock 0%nat) statusOK
            (Some (mkContent "text/plain" (bytes_of text)));
          buildResponse (clock 1%nat) statusMethodNotAllowed None].
Proof.
  intros Htext Hv Hwhole Hhs Hcolons Hin.
  assert (word ("/echo/" +:+ text) = true) as Hp by exact Htext.
  pose proof (handleConn_parsed clock opts conn fs "GET" ("/echo/" +:+ text) v
                (header_line <$> hs) (bytes_of CRLF) body eq_refl Hp Hv Hwhole
                (header_lines_passed_on hs Hhs) eq_refl eq_refl Hin) as Hrun.
  destruct (parse_all_with_colons hs (request_of "GET" ("/echo/" +:+ text) v) Hcolons)
    as [req Hreq].
  rewrite Hreq in Hrun. destruct Hrun as (b & _ & ->).
  assert (method req = "GET" /\ pathParts req = "" :: "echo" :: strings.Split text "/")
    as [Hm Hparts].
  { clear -Hreq Hp.
    assert (forall ls r r', parse_all ls r = Ok r' ->
              method r' = method r /\ pathParts r' = pathParts r) as Hframe.
    { induction ls as [|l ls IH]; intros r r'; simpl; [by intros [= <-]|].
      destruct (parseHeader l r) as [r1|] eqn:E; [|done].
      intros [-> ->]%IH. apply parseHeader_frame in E. tauto. }
    destruct (Hframe _ _ _ Hreq) as [-> ->]. split; [done|].
    unfold request_of. cbn [pathParts set_pathParts].
    rewrite Trim_ascii_no_space by (by destruct text).
    rewrite !append_cons. cbn [strings.Split Ascii.eqb Bool.eqb].
    reflexivity. }
  cbn [fmap option_fmap option_map].
  rewrite (route_GET_echo clock opts req b fs Hm); [|by rewrite Hparts].
  cbn [written]. rewrite Hparts.
  change (drop 2 ("" :: "echo" :: strings.Split text "/"))
    with (strings.Split text "/").
  by rewrite Join_Split.
Qed.

Lemma GET_echo_end_to_end_witness :
  let conn := sends ["GET /echo/a/"; "b//c HTTP/1.1" +:+ CRLF +:+ "Host: h:1";
                     CRLF +:+ CRLF +:+ "tail"] in
  let hs := ["Host: h:1"] in
  ascii_no_space "a/b//c" = true /\ word "HTTP/1.1" = true /\
  scanned_whole (request_line "GET" ("/echo/" +:+ "a/b//c") "HTTP/1.1") = true /\
  forallb header_text hs = true /\
  forallb (fun h => negb (lacks ":" h)) hs = true /\
  concat (incoming conn)
  = request_line "GET" ("/echo/" +:+ "a/b//c") "HTTP/1.1"
    ++ concat (header_line <$> hs) ++ bytes_of CRLF ++ bytes_of "tail" /\
  written <$> handleConn the_clock the_opts conn (empty_fs false)
  = Some [buildResponse (the_clock 0%nat) statusOK
            (Some (mkContent "text/plain" (bytes_of "a/b//c")));
          buildResponse (the_clock 1%nat) statusMethodNotAllowed None].
Proof.
  intros conn hs. split_and!; [reflexivity..|].
  exact (GET_echo_end_to_end the_clock the_opts conn (empty_fs false)
           "a/b//c" "HTTP/1.1" hs (bytes_of "tail")
           eq_refl eq_refl eq_refl eq_refl eq_refl eq_refl).
Defined.

(** ** The report of a failed bind *)

Lemma SplitAfter_no_sep s sep :
  split_first s sep = None -> strings.SplitAfter s sep = [s].
Proof.
  induction s as [|c s IH]; simpl; [done|].
  destruct (Ascii.eqb c sep); [done|].
  destruct (split_first s sep) as [[k v]|]; [done|].
  intros _. by rewrite IH.
Qed.

Lemma SplitAfter_split_first s sep k v :
  split_first s sep = Some (k, v) ->
  strings.SplitAfter s sep = (k +:+ String sep EmptyString) :: strings.SplitAfter v sep.
Proof.
  revert k. induction s as [|c s IH]; intros k; simpl; [done|].
  destruct (Ascii.eqb_spec c sep) as [->|Hc]; [by intros [= <- <-]|].
  destruct (split_first s sep) as [[k' v']|]; [|done].
  intros [= <- <-]. by rewrite (IH k' eq_refl).
Qed.

Lemma split_first_app h rest sep :
  lacks sep h = true ->
  split_first (h +:+ String sep rest) sep = Some (h, rest).
Proof.
  induction h as [|c h IH].
  - intros _. simpl. by rewrite Ascii.eqb_refl.
  - rewrite lacks_cons. intros [Hc Hh]%andb_prop. rewrite append_cons. simpl.
    rewrite Ascii.eqb_sym. apply negb_true_iff in Hc as ->. by rewrite (IH Hh).
Qed.

(** X10: when the bind fails, [main] reports the port only for a host
    that has a colon. For a host without one the report itself panics,
    with an index out of range; for a host and a port with a colon between
    them it prints the port. *)
Theorem bindFailure_reports_the_port directory host :
  (lacks ":" host = true ->
   bindFailure (mkOptions directory host) = Panic (IndexOutOfRange 1 1)) /\
  (forall h port,
     host = h +:+ ":" +:+ port -> lacks ":" h = true -> lacks ":" port = true ->
     bindFailure (mkOptions directory host)
     = Ok ("Failed to bind to port " +:+ port +:+ String LF EmptyString)).
Proof.
  unfold bindFailure. cbn [opt_host]. split.
  - intros Hno%lacks_split_first. by rewrite (SplitAfter_no_sep _ _ Hno).
  - intros h port -> Hh Hport%lacks_split_first.
    change (h +:+ ":" +:+ port) with (h +:+ String ":" port).
    rewrite (SplitAfter_split_first _ _ _ _ (split_first_app h port ":" Hh)).
    by rewrite (SplitAfter_no_sep _ _ Hport).
Qed.

(** ** The frame of a response *)

Lemma string_of_uint_lacks c d :
  strconv.is_digit c = false -> lacks c (NilEmpty.string_of_uint d) = true.
Proof.
  intros Hc. induction d as [|d IH|d IH|d IH|d IH|d IH|d IH|d IH|d IH|d IH|d IH];
    [done|..]; cbn [NilEmpty.string_of_uint]; rewrite lacks_cons, IH, andb_true_r;
    apply negb_true_iff;
    match goal with
    | |- Ascii.eqb c ?d = false =>
        destruct (Ascii.eqb_spec c d) as [->|]; [discriminate Hc|done]
    end.
Qed.

Lemma Sprintd_lacks c n :
  strconv.is_digit c = false -> lacks c (fmt.Sprintd (Z.of_nat n)) = true.
Proof.
  intros Hc. unfold fmt.Sprintd.
  assert (lacks c "0" = true) as Hzero.
  { unfold lacks. simpl. by destruct (Ascii.eqb_spec c "0") as [->|]. }
  destruct (Z.of_nat n) as [|p|p] eqn:E; [done| |lia].
  cbn [Z.to_int NilZero.string_of_int]. unfold NilZero.string_of_uint.
  destruct (Pos.to_uint p) eqn:Hp; rewrite <- ?Hp;
    [done|by apply string_of_uint_lacks..].
Qed.

Lemma header_text_app prefix s :
  header_text prefix = true -> lacks LF s = true -> header_text (prefix +:+ s) = true.
Proof.
  unfold header_text. intros [Hne Hp]%andb_prop Hs.
  rewrite lacks_app, Hp, Hs, andb_true_r.
  destruct prefix as [|c prefix]; [done|]. by rewrite append_cons.
Qed.

Lemma header_line_app prefix s :
  bytes_of (prefix +:+ s +:+ CRLF) = header_line (prefix +:+ s).
Proof. unfold header_line. by rewrite append_assoc. Qed.

(** X11: the frame of a response. Whatever the status code and the
    content, when the clock reading and the content type have no line
    feed, the bytes that [buildResponse] returns are header lines, each
    of at least one byte before its CRLF and without a line feed inside,
    then the blank line, then exactly the body. So the first empty line of
    a response is the one before its body, for any body. *)
Theorem buildResponse_frames_the_body now code c :
  lacks LF now = true ->
  from_option (fun c => lacks LF (contentType c)) true c = true ->
  exists texts,
    forallb header_text texts = true /\
    buildResponse now code c
    = concat (header_line <$> texts) ++ bytes_of CRLF ++ from_option body [] c.
Proof.
  intros Hnow Hc. rewrite buildResponse_after.
  assert (exists st, forallb header_text st = true /\
                     bytes_of (statusLine code) = concat (header_line <$> st))
    as (st & Hst & ->).
  { unfold statusLine.
    destruct (code =? statusOK); [by exists ["HTTP/1.1 200 OK"]|].
    destruct (code =? statusCreated); [by exists ["HTTP/1.1 201 Created"]|].
    destruct (code =? statusNotFound); [by exists ["HTTP/1.1 404 Not Found"]|].
    destruct (code =? statusMethodNotAllowed);
      [by exists ["HTTP/1.1 405 Method Not Allowed"]|].
    by exists []. }
  unfold after_status_line. rewrite !header_line_app.
  change (bytes_of ("Server: " +:+ serverName +:+ " v" +:+ serverVersion +:+ CRLF))
    with (header_line ("Server: " +:+ serverName +:+ " v" +:+ serverVersion)).
  assert (header_text ("Date: " +:+ now) = true) as Hdate
    by (by apply header_text_app).
  destruct c as [c|]; cbn [from_option] in *.
  - exists (st ++ ["Date: " +:+ now;
                   "Server: " +:+ serverName +:+ " v" +:+ serverVersion;
                   "Content-Type: " +:+ contentType c;
                   "Content-Length: " +:+ fmt.Sprintd (Z.of_nat (length (body c)))]).
    split.
    + rewrite forallb_app, Hst. cbn [forallb andb]. rewrite Hdate.
      rewrite (header_text_app "Content-Type: " _ eq_refl Hc).
      by rewrite (header_text_app "Content-Length: " _ eq_refl
                    (Sprintd_lacks LF _ eq_refl)).
    + rewrite fmap_app, concat_app. cbn [fmap list_fmap concat].
      by rewrite <- !app_assoc.
  - exists (st ++ ["Date: " +:+ now;
                   "Server: " +:+ serverName +:+ " v" +:+ serverVersion]).
    split.
    + rewrite forallb_app, Hst. cbn [forallb andb]. by rewrite Hdate.
    + rewrite fmap_app, concat_app. cbn [fmap list_fmap concat].
      by rewrite <- !app_assoc.
Qed.

Lemma buildResponse_frames_the_body_witness :
  let c := Some (mkContent contentTypeOctetStream
                   (bytes_of (CRLF +:+ CRLF +:+ "HTTP/1.1 500"))) in
  lacks LF "Thu, 01 Jan 1970 00:00:00 UTC" = true /\
  from_option (fun c => lacks LF (contentType c)) true c = true /\
  exists texts,
    forallb header_text texts = true /\
    buildResponse "Thu, 01 Jan 1970 00:00:00 UTC" statusOK c
    = concat (header_line <$> texts) ++ bytes_of CRLF ++ from_option body [] c.
Proof.
  intros c. split; [reflexivity|]. split; [reflexivity|].
  exact (buildResponse_frames_the_body "Thu, 01 Jan 1970 00:00:00 UTC" statusOK c
           eq_refl eq_refl).
Defined.

(** ** Numbers in decimal *)

Lemma uint_value_of_uint_acc d : forall acc,
  Z.pos (Pos.of_uint_acc d acc) = uint_value d (Z.pos acc).
Proof.
  induction d as [|d IH|d IH|d IH|d IH|d IH|d IH|d IH|d IH|d IH|d IH];
    intros acc; cbn [Pos.of_uint_acc uint_value]; [done|rewrite IH; f_equal; lia..].
Qed.

Lemma uint_value_of_uint d : Z.of_N (Pos.of_uint d) = uint_value d 0.
Proof.
  induction d as [|d IH|d IH|d IH|d IH|d IH|d IH|d IH|d IH|d IH|d IH];
    cbn [Pos.of_uint uint_value]; [done|exact IH|..];
    cbn [Z.of_N]; by rewrite uint_value_of_uint_acc.
Qed.

Lemma uint_value_mono d : forall acc, 0 <= acc -> acc <= uint_value d acc.
Proof.
  induction d as [|d IH|d IH|d IH|d IH|d IH|d IH|d IH|d IH|d IH|d IH];
    intros acc Hacc; cbn [uint_value]; [lia|..];
    match goal with
    | |- _ <= uint_value d ?a => specialize (IH a); lia
    end.
Qed.

(** The digit loop of [ParseUint] on the digits of a number that fits. *)
Lemma parseUint_loop_digits d : forall acc,
  0 <= acc -> uint_value d acc <= strconv.maxUint64 ->
  strconv.parseUint_loop (NilEmpty.string_of_uint d) acc = (uint_value d acc, None).
Proof.
  unfold strconv.maxUint64.
  induction d as [|d IH|d IH|d IH|d IH|d IH|d IH|d IH|d IH|d IH|d IH];
    intros acc Hacc Hfit; cbn [NilEmpty.string_of_uint uint_value] in *; [done|..];
    cbn [strconv.parseUint_loop];
    match goal with
    | |- context [strconv.is_digit ?c] =>
        change (strconv.is_digit c) with true;
        let k := eval vm_compute in (strconv.digit c) in
        change (strconv.digit c) with k
    end;
    cbn [negb];
    match type of Hfit with
    | uint_value d ?a <= _ =>
        pose proof (uint_value_mono d a ltac:(lia));
        replace (acc * 10 + _) with a by lia
    end;
    rewrite Z.geb_leb, Z.gtb_ltb;
    change (strconv.maxUint64 / 10 + 1) with 1844674407370955162;
    change strconv.maxUint64 with 18446744073709551615;
    (destruct (Z.leb_spec 1844674407370955162 acc); [lia|]);
    match goal with
    | |- context [?m <? ?a] => destruct (Z.ltb_spec m a); [lia|]
    end;
    apply IH; lia.
Qed.

Lemma string_of_uint_first d :
  d ≠ Decimal.Nil ->
  exists c rest, NilEmpty.string_of_uint d = String c rest /\ strconv.is_digit c = true.
Proof. destruct d; [done|by eexists _, _..]. Qed.

(** [Atoi] reads back what [%d] prints of a number that is not negative. *)
Lemma Atoi_Sprintd n :
  0 <= n < 2 ^ 63 -> strconv.Atoi (fmt.Sprintd n) = (n, None).
Proof.
  intros [Hn Hmax]. destruct n as [|p|p]; [done| |lia].
  unfold fmt.Sprintd. cbn [Z.to_int NilZero.string_of_int].
  pose proof (DecimalPos.Unsigned.to_uint_nonnil p) as Hnil.
  assert (NilZero.string_of_uint (Pos.to_uint p)
          = NilEmpty.string_of_uint (Pos.to_uint p)) as ->
    by (by destruct (Pos.to_uint p)).
  assert (uint_value (Pos.to_uint p) 0 = Z.pos p) as Hval.
  { rewrite <- uint_value_of_uint. by rewrite DecimalPos.Unsigned.of_to. }
  pose proof (parseUint_loop_digits (Pos.to_uint p) 0 ltac:(lia)) as Hloop.
  rewrite Hval in Hloop.
  destruct (string_of_uint_first _ Hnil) as (c & rest & Hs & Hc).
  rewrite Hs in *. unfold strconv.Atoi, strconv.ParseInt.
  assert (Ascii.eqb c "-" = false /\ Ascii.eqb c "+" = false) as [-> ->].
  { split;
      match goal with
      | |- Ascii.eqb c ?s = false =>
          destruct (Ascii.eqb_spec c s) as [->|]; [discriminate Hc|done]
      end. }
  cbn [orb]. unfold strconv.ParseUint. rewrite Hloop.
  - cbn [negb andb]. rewrite Z.geb_leb.
    destruct (Z.leb_spec (2 ^ 63) (Z.pos p)); [lia|done].
  - unfold strconv.maxUint64. lia.
Qed.

(** ** The Content-Length line *)

Lemma contains_cutset c :
  strings.contains c (String CR (String LF " "))
  = Ascii.eqb c CR || Ascii.eqb c LF || Ascii.eqb c " ".
Proof. simpl. by rewrite orb_false_r, orb_assoc. Qed.

Lemma untrimmable_cons c w :
  untrimmable (String c w) = true ->
  strings.contains c (String CR (String LF " ")) = false /\ untrimmable w = true.
Proof.
  unfold untrimmable. rewrite !lacks_cons, contains_cutset.
  rewrite (Ascii.eqb_sym CR), (Ascii.eqb_sym LF), (Ascii.eqb_sym " ").
  intros [[[Ha ->]%andb_prop [Hb ->]%andb_prop]%andb_prop [Hc ->]%andb_prop]%andb_prop.
  apply negb_true_iff in Ha as ->. apply negb_true_iff in Hb as ->.
  by apply negb_true_iff in Hc as ->.
Qed.

Lemma TrimRight_CRLF c w :
  untrimmable (String c w) = true ->
  strings.TrimRight (String c w +:+ CRLF) (String CR (String LF " ")) = String c w.
Proof.
  revert c. induction w as [|d w IH]; intros c [Hc Hw]%untrimmable_cons.
  - rewrite append_cons. cbn [strings.TrimRight].
    change (strings.TrimRight ("" +:+ CRLF) (String CR (String LF " "))) with "".
    by rewrite Hc.
  - rewrite append_cons. cbn [strings.TrimRight]. by rewrite (IH d Hw).
Qed.

(** What the header parser takes for the value of a line that is a key, a
    colon, a space and a text that trimming leaves alone. *)
Lemma Trim_value w :
  untrimmable w = true -> w ≠ "" ->
  strings.Trim (" " +:+ w +:+ CRLF) (String CR (String LF " ")) = w.
Proof.
  intros Hw Hne. destruct w as [|c w]; [done|].
  unfold strings.Trim.
  change (" " +:+ String c w +:+ CRLF) with (String " " (String c (w +:+ CRLF))).
  cbn [strings.TrimLeft]. change (strings.contains " " _) with true. cbv iota.
  destruct (untrimmable_cons _ _ Hw) as [Hc _]. rewrite Hc.
  by apply (TrimRight_CRLF c w).
Qed.

Lemma Sprintd_untrimmable n :
  untrimmable (fmt.Sprintd (Z.of_nat n)) = true /\
  lacks ":" (fmt.Sprintd (Z.of_nat n)) = true /\
  fmt.Sprintd (Z.of_nat n) ≠ "".
Proof.
  unfold untrimmable. rewrite !Sprintd_lacks by done. split_and!; [done..|].
  unfold fmt.Sprintd. destruct (Z.of_nat n) as [|p|p] eqn:E; [done| |lia].
  cbn [Z.to_int NilZero.string_of_int]. unfold NilZero.string_of_uint.
  pose proof (DecimalPos.Unsigned.to_uint_nonnil p).
  by destruct (Pos.to_uint p).
Qed.

(** The header parser on the Content-Length line of a length. *)
Lemma headers_with_contentLength n req :
  Z.of_nat n < 2 ^ 63 ->
  parse_all (header_line <$> ["Content-Length: " +:+ fmt.Sprintd (Z.of_nat n)]) req
  = Ok (set_contentLength (Z.of_nat n) req).
Proof.
  intros Hn. destruct (Sprintd_untrimmable n) as (Hw & Hcolon & Hne).
  cbn [fmap list_fmap parse_all]. unfold header_line.
  assert (split_first
            (string_of (bytes_of (("Content-Length: " +:+ fmt.Sprintd (Z.of_nat n)) +:+ CRLF)))
            ":"
          = Some ("Content-Length", " " +:+ fmt.Sprintd (Z.of_nat n) +:+ CRLF)) as E
    by (by rewrite string_of_bytes_of, append_assoc).
  rewrite (parseHeader_with_colon _ _ _ _ E). cbv zeta.
  change (String.eqb (strings.Trim "Content-Length" _) "Host") with false.
  change (String.eqb (strings.Trim "Content-Length" _) "User-Agent") with false.
  change (String.eqb (strings.Trim "Content-Length" _) "Content-Length") with true.
  cbv iota. unfold up_to_colon.
  assert (split_first (" " +:+ fmt.Sprintd (Z.of_nat n) +:+ CRLF) ":" = None) as ->.
  { apply lacks_split_first. by rewrite !lacks_app, Hcolon. }
  rewrite (Trim_value _ Hw Hne), Atoi_Sprintd by lia. done.
Qed.

(** X12: the Content-Length line is read back. The header parser, given
    the line that [buildResponse] writes for a body of [n] bytes (the
    key, a colon, a space, [n] in decimal, CRLF), sets the content length
    to [n], for every length below 2^63. *)
Theorem contentLength_line_round_trip n req :
  Z.of_nat n < 2 ^ 63 ->
  parseHeader (bytes_of ("Content-Length: " +:+ fmt.Sprintd (Z.of_nat n) +:+ CRLF)) req
  = Ok (set_contentLength (Z.of_nat n) req).
Proof.
  intros Hn. pose proof (headers_with_contentLength n req Hn) as H.
  cbn [fmap list_fmap parse_all] in H. unfold header_line in H.
  rewrite append_assoc in H.
  by destruct (parseHeader _ req) as [req'|pn].
Qed.

Lemma contentLength_line_round_trip_witness :
  Z.of_nat 4096 < 2 ^ 63 /\
  parseHeader (bytes_of ("Content-Length: " +:+ fmt.Sprintd (Z.of_nat 4096) +:+ CRLF))
              zero_request
  = Ok (set_contentLength (Z.of_nat 4096) zero_request).
Proof.
  split; [reflexivity|].
  exact (contentLength_line_round_trip 4096 zero_request eq_refl).
Defined.

(** ** The round trip of a file, end to end *)

(** Once the connection has nothing more to give, or when all it has is
    one chunk that fits the buffer, a read leaves it with nothing: what is
    still to read is in the buffer. *)
Lemma ReadBytes_loop_rd_nil delim : forall fuel b frags out e b',
  bufio.rd b = [] \/
  (bufio.buf b = [] /\
   exists chunk, bufio.rd b = [chunk] /\ (length chunk <= bufio.defaultBufSize)%nat) ->
  bufio.ReadBytes_loop fuel delim b frags = Some (out, e, b') ->
  bufio.rd b' = [].
Proof.
  induction fuel as [|fuel IH]; intros [buf rd err] frags out e b' Hb; [done|].
  rewrite ReadBytes_loop_S. cbn [bufio.buf bufio.rd bufio.rdErr] in *.
  destruct Hb as [->|(-> & chunk & -> & Hfit)].
  - destruct (bufio.cut delim buf) as [[line rest]|]; [by intros [= <- <- <-]|].
    destruct (bufio.defaultBufSize <=? length buf)%nat.
    + apply IH. by left.
    + cbn [conn_Read]. by intros [= <- <- <-].
  - cbn [bufio.cut length]. pose proof defaultBufSize_pos.
    destruct (Nat.leb_spec bufio.defaultBufSize 0); [lia|].
    rewrite Nat.sub_0_r. destruct chunk as [|x chunk].
    + cbn [conn_Read]. by intros [= <- <- <-].
    + cbn [conn_Read]. rewrite (drop_ge (x :: chunk)) by done.
      apply IH. by left.
Qed.

Lemma parseHeaders_rd_nil : forall fuel b req req' b',
  bufio.rd b = [] -> parseHeaders fuel b req = Some (Break req' b') ->
  bufio.rd b' = [].
Proof.
  induction fuel as [|fuel IH]; intros b req req' b' Hb; [done|].
  rewrite parseHeaders_S.
  destruct (bufio.ReadBytes b "010") as [[[out e] b1]|] eqn:Hread; [|done].
  apply ReadBytes_loop_rd_nil in Hread; [|by left].
  cbn [mbind option_bind]. destruct e as [e|]; [done|].
  destruct (length out =? 2)%nat; [by intros [= <- <-]|].
  destruct (parseHeader out req) as [req1|pn]; [|done].
  by apply IH.
Qed.

Lemma pathParts_files m name v :
  ascii_no_space name = true -> lacks "/" name = true ->
  pathParts (request_of m ("/files/" +:+ name) v) = [""; "files"; name].
Proof.
  intros Hname Hslash. unfold request_of. cbn [pathParts set_pathParts].
  rewrite Trim_ascii_no_space by exact Hname.
  change (strings.Split ("/files/" +:+ name) "/")
    with ("" :: "files" :: strings.Split name "/").
  by rewrite (Split_no_sep name "/") by (by apply lacks_split_first).
Qed.

(** X13: the round trip of a file, end to end, where it holds. A POST
    to [/files/<name>] that declares the length of its body and comes in
    one chunk no longer than the buffer of the reader is answered 201
    Created; any later GET for [/files/<name>], in whatever chunks, then
    gets the bytes of the body, unchanged, in a 200 response of type
    application/octet-stream. This is for a process that runs as the
    superuser (the file is created without any permission), a name of
    ASCII bytes without a space or a slash, versions that are words of
    such bytes, request lines within the 2^30 runes that a scan reads, and
    a path that exists or can be created. *)
Theorem files_round_trip_end_to_end clock opts fs name v v' body conn1 conn2 :
  ascii_no_space name = true -> lacks "/" name = true ->
  word v = true -> word v' = true ->
  scanned_whole (request_line "GET" ("/files/" +:+ name) v') = true ->
  Z.of_nat (length body) <= maxAlloc ->
  os.superuser fs = true ->
  (is_Some (os.files fs !! (directory opts +:+ name))
   \/ os.creatable fs (directory opts +:+ name) = true) ->
  incoming conn1
  = [request_line "POST" ("/files/" +:+ name) v
     ++ header_line ("Content-Length: " +:+ fmt.Sprintd (Z.of_nat (length body)))
     ++ bytes_of CRLF ++ body] ->
  (bytes_left (incoming conn1) <= bufio.defaultBufSize)%nat ->
  concat (incoming conn2)
  = request_line "GET" ("/files/" +:+ name) v' ++ bytes_of CRLF ->
  exists r1 r2,
    handleConn clock opts conn1 fs = Some r1 /\
    handleConn clock opts conn2 (fsys r1) = Some r2 /\
    written r1 = [buildResponse (clock 0%nat) statusCreated None] /\
    written r2 !! 0%nat
    = Some (buildResponse (clock 0%nat) statusOK
              (Some (mkContent contentTypeOctetStream body))).
Proof.
  intros Hname Hslash Hv Hv' Hwhole2 Hmax Hroot Hfile Hin1 Hfit Hin2.
  set (p := "/files/" +:+ name) in *.
  set (n := length body) in *.
  assert (word p = true) as Hp by exact Hname.
  assert (scanned_whole (request_line "POST" p v) = true) as Hwhole1.
  { unfold bytes_left in Hfit. rewrite Hin1 in Hfit. cbn [concat] in Hfit.
    rewrite app_nil_r, length_app in Hfit.
    assert (Z.of_nat bufio.defaultBufSize = 4096) as Hsize by reflexivity.
    unfold scanned_whole, fmt.hugeWid. apply Z.leb_le. lia. }
  assert (Z.of_nat n < 2 ^ 63) as Hn by (unfold maxAlloc in Hmax; lia).
  (* the POST *)
  set (hs := ["Content-Length: " +:+ fmt.Sprintd (Z.of_nat n)]).
  assert (bufio.remaining (bufio.NewReader conn1)
          = request_line "POST" p v
            ++ (concat (header_line <$> hs) ++ bytes_of CRLF ++ body)) as Hrem.
  { unfold bufio.remaining, bufio.NewReader. cbn [bufio.buf bufio.rd app].
    rewrite Hin1. cbn [concat fmap list_fmap hs]. by rewrite !app_nil_r. }
  destruct (ReadBytes_line (bufio.NewReader conn1) _ _
              (is_line_request_line "POST" p v eq_refl Hp Hv) Hrem)
    as (b1 & Hread & Hb1 & _).
  assert (bufio.rd b1 = []) as Hrd1.
  { unfold bufio.ReadBytes in Hread.
    apply ReadBytes_loop_rd_nil in Hread; [done|].
    right. split; [done|]. eexists. split; [exact Hin1|].
    unfold bytes_left in Hfit. rewrite Hin1 in Hfit. cbn [concat] in Hfit.
    by rewrite app_nil_r in Hfit. }
  assert (forallb header_text hs = true) as Hhs.
  { cbn [forallb hs]. rewrite andb_true_r.
    apply (header_text_app "Content-Length: " _ eq_refl). by apply Sprintd_lacks. }
  pose proof (parseHeaders_lines_fuel (header_line <$> hs) (parseHeaders_fuel b1) b1
                (request_of "POST" p v) (bytes_of CRLF) body
                (header_lines_passed_on hs Hhs) eq_refl eq_refl Hb1) as Hloop.
  unfold hs in Hloop. rewrite (headers_with_contentLength n _ Hn) in Hloop.
  destruct Hloop as (b2 & Hloop & Hb2); [unfold parseHeaders_fuel; lia|].
  pose proof (parseHeaders_rd_nil _ _ _ _ _ Hrd1 Hloop) as Hrd2.
  assert (bufio.buf b2 = body) as Hbuf.
  { revert Hb2. unfold bufio.remaining. rewrite Hrd2. cbn [concat].
    by rewrite app_nil_r. }
  assert (handleConn clock opts conn1 fs
          = Some (route clock opts
                    (set_contentLength (Z.of_nat n) (request_of "POST" p v)) b2 fs))
    as Hrun1.
  { unfold handleConn. rewrite Hread. cbn [mbind option_bind].
    rewrite (Sscanf_request_line "POST" p v eq_refl Hp Hv Hwhole1).
    change (set_pathParts _ _) with (request_of "POST" p v).
    by rewrite Hloop. }
  (* the GET *)
  assert (concat (incoming conn2)
          = request_line "GET" p v' ++ concat [] ++ bytes_of CRLF ++ []) as Hin2'
    by (rewrite Hin2; cbn [concat app]; by rewrite app_nil_r).
  pose proof (handleConn_parsed clock opts conn2
                (fsys (route clock opts
                         (set_contentLength (Z.of_nat n) (request_of "POST" p v)) b2 fs))
                "GET" p v' [] (bytes_of CRLF) [] eq_refl Hp Hv' Hwhole2
                (Forall_nil_2 _) eq_refl eq_refl Hin2') as Hrun2.
  cbn [parse_all] in Hrun2. destruct Hrun2 as (b3 & _ & Hrun2).
  assert (forall m w, pathParts (request_of m p w) = [""; "files"; name]) as Hparts
    by (intros; by apply pathParts_files).
  eexists _, _. split; [exact Hrun1|]. split; [exact Hrun2|].
  apply (files_round_trip_buffered clock opts _ _ b2 b3 fs name body).
  - reflexivity.
  - change (pathParts (set_contentLength _ ?r)) with (pathParts r).
    by rewrite Hparts.
  - change (pathParts (set_contentLength _ ?r)) with (pathParts r).
    by rewrite Hparts.
  - reflexivity.
  - exact Hmax.
  - rewrite Hbuf. by apply take_ge.
  - left. by split.
  - reflexivity.
  - by rewrite Hparts.
  - by rewrite Hparts.
Qed.

Lemma files_round_trip_end_to_end_witness :
  let body := bytes_of "hello" in
  let conn1 :=
    sends [http ["POST /files/a.txt HTTP/1.1"; "Content-Length: 5"; ""] "hello"] in
  let conn2 := sends ["GET /files/a"; ".txt HTTP/1.1" +:+ CRLF; CRLF] in
  let fs := empty_fs true in
  ascii_no_space "a.txt" = true /\ lacks "/" "a.txt" = true /\
  scanned_whole (request_line "GET" "/files/a.txt" "HTTP/1.1") = true /\
  Z.of_nat (length body) <= maxAlloc /\
  (bytes_left (incoming conn1) <= bufio.defaultBufSize)%nat /\
  exists r1 r2,
    handleConn the_clock the_opts conn1 fs = Some r1 /\
    handleConn the_clock the_opts conn2 (fsys r1) = Some r2 /\
    written r1 = [buildResponse (the_clock 0%nat) statusCreated None] /\
    written r2 !! 0%nat
    = Some (buildResponse (the_clock 0%nat) statusOK
              (Some (mkContent contentTypeOctetStream body))).
Proof.
  intros body conn1 conn2 fs.
  assert (Z.of_nat (length body) <= maxAlloc) as Hmax by (by vm_compute).
  assert (bytes_left (incoming conn1) <= bufio.defaultBufSize)%nat as Hfit
    by (apply Nat.leb_le; reflexivity).
  split; [reflexivity|]. split; [reflexivity|]. split; [reflexivity|].
  split; [exact Hmax|]. split; [exact Hfit|].
  exact (files_round_trip_end_to_end the_clock the_opts fs "a.txt"
           "HTTP/1.1" "HTTP/1.1" body conn1 conn2
           eq_refl eq_refl eq_refl eq_refl eq_refl Hmax eq_refl (or_intror eq_refl)
           eq_refl Hfit eq_refl).
Defined.

(** ** Edge cases of the POST route *)




(** X15: a POST without a Content-Length header stores an EMPTY file.
    For a POST to [/files/<name>] with no header lines at all, the name
    being of ASCII bytes without a space or a slash and the request line
    within the 2^30 runes that a scan reads, whatever body follows
    the blank line and in whatever chunks it comes, the body is not read:
    the handler answers 201 Created and the file is left with no bytes
    (when the path can be written: here, as the superuser, for a path that
    exists or can be created). *)
Theorem POST_without_length_stores_nothing clock opts fs name v body conn :
  ascii_no_space name = true -> lacks "/" name = true -> word v = true ->
  scanned_whole (request_line "POST" ("/files/" +:+ name) v) = true ->
  os.superuser fs = true ->
  (is_Some (os.files fs !! (directory opts +:+ name))
   \/ os.creatable fs (directory opts +:+ name) = true) ->
  concat (incoming conn)
  = request_line "POST" ("/files/" +:+ name) v ++ bytes_of CRLF ++ body ->
  exists r,
    handleConn clock opts conn fs = Some r /\
    written r = [buildResponse (clock 0%nat) statusCreated None] /\
    bufio.remaining (reader r) = body /\
    os.data <$> os.files (fsys r) !! (directory opts +:+ name) = Some [].
Proof.
  intros Hname Hslash Hv Hwhole Hroot Hfile Hin.
  pose proof (handleConn_parsed clock opts conn fs "POST" ("/files/" +:+ name) v
                [] (bytes_of CRLF) body eq_refl Hname Hv Hwhole (Forall_nil_2 _)
                eq_refl eq_refl Hin) as Hrun.
  cbn [parse_all] in Hrun. destruct Hrun as (b & Hb & ->).
  eexists. split; [done|].
  rewrite (route_POST_files clock opts _ b fs name 0);
    [|done|by rewrite pathParts_files..|done|done].
  unfold bufio.Read. cbn [Nat.eqb length replicate Nat.sub app].
  unfold os.WriteFile, os.may_write. rewrite Hroot. cbn [orb].
  destruct Hfile as [[f Hf]|Hnew].
  - rewrite Hf. cbn [written reader fsys os.set_file os.files].
    by rewrite lookup_insert_eq.
  - rewrite Hnew. destruct (os.files fs !! _);
      cbn [written reader fsys os.set_file os.files]; by rewrite lookup_insert_eq.
Qed.

Lemma POST_without_length_stores_nothing_witness :
  let conn := sends ["POST /files/a.txt HTTP/1.1" +:+ CRLF; CRLF +:+ "he"; "llo"] in
  let fs := os.mkFilesystem {[ "./a.txt" := os.mkFile 420 (bytes_of "old") ]}
                            (fun _ => false) true in
  ascii_no_space "a.txt" = true /\ lacks "/" "a.txt" = true /\
  scanned_whole (request_line "POST" "/files/a.txt" "HTTP/1.1") = true /\
  exists r,
    handleConn the_clock the_opts conn fs = Some r /\
    written r = [buildResponse (the_clock 0%nat) statusCreated None] /\
    bufio.remaining (reader r) = bytes_of "hello" /\
    os.data <$> os.files (fsys r) !! "./a.txt" = Some [].
Proof.
  intros conn fs. split; [reflexivity|]. split; [reflexivity|].
  split; [reflexivity|].
  exact (POST_without_length_stores_nothing the_clock the_opts fs "a.txt" "HTTP/1.1"
           (bytes_of "hello") conn eq_refl eq_refl eq_refl eq_refl eq_refl
           (or_introl (ex_intro _ _ eq_refl)) eq_refl).
Defined.

Lemma parseHeader_stores_value_witness :
  let line := header_line "User-Agent:  curl/8.5 (x86_64)  " in
  split_first (string_of line) ":" = Some ("User-Agent", "  curl/8.5 (x86_64)  " +:+ CRLF) /\
  split_first ("  curl/8.5 (x86_64)  " +:+ CRLF) ":" = None /\
  exists key value,
    header_key line = Some key /\ header_value line = Some value /\
    parseHeader line zero_request =
    if String.eqb key "Host" then Ok (set_host value zero_request)
    else if String.eqb key "User-Agent" then Ok (set_userAgent value zero_request)
    else if String.eqb key "Content-Length"
         then Ok (set_contentLength (strconv.Atoi value).1 zero_request)
    else Ok zero_request.
Proof.
  intros line. split; [reflexivity|]. split; [reflexivity|].
  exact (parseHeader_stores_value line zero_request
           "User-Agent" ("  curl/8.5 (x86_64)  " +:+ CRLF) eq_refl eq_refl).
Defined.
